(** * COSmon: carrier-operated-switch monitor (COSmon/Source/COSmon.c)

    A shallow embedding of [main] and [wifiLightHandler].  The program is a
    single polling loop over GPIO pins; it is modelled as a function from the
    values the environment supplies (configuration values, pin reads, the
    address string) to the list of externally visible calls it makes
    ([system], [digitalWrite], [pinMode], ...) and the way it ends. *)

From Stdlib Require Import ZArith List Bool String Ascii Lia.
From Stdlib Require Import SpecFloat.
Import ListNotations.
Local Open Scope Z_scope.

(** ** C integer types *)

Definition to_uint8 (z : Z) : Z := z mod 2 ^ 8.
Definition to_uint16 (z : Z) : Z := z mod 2 ^ 16.
Definition to_uint32 (z : Z) : Z := z mod 2 ^ 32.

Definition INT_MIN : Z := - 2 ^ 31.
Definition INT_MAX : Z := 2 ^ 31 - 1.

(** ** wiringPi constants (wiringPi.h) *)

Definition LOW : Z := 0.
Definition HIGH : Z := 1.
Definition INPUT : Z := 0.
Definition OUTPUT : Z := 1.
Definition PUD_UP : Z := 2.

(** A pin read gives [LOW] or [HIGH]; below it is carried as a [bool]
    ([true] for [HIGH]), which is also what the assignment to the C [bool]
    variables [LastCOSState] and [CurrCOSState] produces. *)

(** ** Strings of the source *)

Definition nl : string := String "010"%char EmptyString.
Definition tab : string := String "009"%char EmptyString.
Definition dq : string := String "034"%char EmptyString.

Definition strVersion : string := "v1.1".

Definition KeyCmd : string :=
  ("asterisk -rx " ++ dq ++ "susb tune menu-support K" ++ dq)%string.
Definition UnkeyCmd : string :=
  ("asterisk -rx " ++ dq ++ "susb tune menu-support k" ++ dq)%string.
Definition ShutdownScript : string := "/usr/local/sbin/astdn.sh".
Definition PoweroffCmd : string := "/usr/bin/poweroff".
Definition ConfPath : string := "/etc/COSmon.conf".
Definition AsteriskMissingMsg : string :=
  (nl ++ "Asterisk needs to be running first!  Exiting" ++ nl ++ nl)%string.
Definition CosTimeoutMsg : string := ("COS Timeout" ++ nl)%string.
Definition ShuttingDownMsg : string := ("Shutting down!" ++ nl)%string.

(** ** Defaults (the #define block) *)

Definition DEFAULT_EXTCOS_GPIO : Z := 29.
Definition DEFAULT_LOOP_DELAY : Z := 100.
Definition DEFAULT_COS_TIMEOUT_MS : Z := 150000.
Definition DEFAULT_NETWORK_GPIO : Z := 3.
Definition DEFAULT_SHUTDOWN_GPIO : Z := 7.
Definition DEFAULT_NET_CHECK_DIVISOR : Z := 20.
Definition DEFAULT_SD_ACTIVATE_COUNT : Z := 30.
Definition RETVAL_OK : Z := 0.

(** ** Externally visible calls *)

Inductive parg : Type :=
| PInt (z : Z)
| PStr (s : string).

Inductive event : Type :=
| EinitIni (path : string)
| Efprintf_stderr (msg : string)
| Eprintf (fmt : string) (args : list parg)
| EwiringPiSetup
| EpinMode (pin mode : Z)
| EpullUpDnControl (pin pud : Z)
| EdigitalWrite (pin value : Z)
| Esystem (cmd : string)
| Edelay (ms : Z)
| EgetIPaddress
| Einiparser_freedict.

Definition is_pin_setup (e : event) : bool :=
  match e with
  | EwiringPiSetup | EpinMode _ _ | EpullUpDnControl _ _ | EdigitalWrite _ _ => true
  | _ => false
  end.

Definition is_command (e : event) : bool :=
  match e with
  | Esystem _ => true
  | _ => false
  end.

Definition is_write (e : event) : bool :=
  match e with
  | EdigitalWrite _ _ => true
  | _ => false
  end.

(** ** The timeout count: float arithmetic of lines 191-193

    [tempval] is a C [float] (binary32: 24 bits of precision, emax 128);
    [tempval += 0.5] adds a [double] constant, so the sum is taken in
    binary64 and rounded back to binary32.  *)

Definition f32_of_Z (z : Z) : spec_float := binary_normalize 24 128 z 0 false.

Definition f64_half : spec_float := binary_normalize 53 1024 1 (-1) false.

Definition f32_of_f64 (x : spec_float) : spec_float :=
  match x with
  | S754_finite s m e => binary_round 24 128 s m e
  | _ => x
  end.

(** [(int)tempval]: truncation toward zero; undefined when the value is not
    finite or does not fit an [int]. *)
Definition int_of_float (x : spec_float) : option Z :=
  match x with
  | S754_zero _ => Some 0
  | S754_finite s m e =>
      let mag := if 0 <=? e then Z.shiftl (Zpos m) e else Z.shiftr (Zpos m) (- e) in
      let v := if s then - mag else mag in
      if (INT_MIN <=? v) && (v <=? INT_MAX) then Some v else None
  | _ => None
  end.

Definition compute_timeout_count (TimeoutMs LoopDelayMs : Z) : option Z :=
  let tempval := SFdiv 24 128 (f32_of_Z TimeoutMs) (f32_of_Z LoopDelayMs) in
  let tempval := f32_of_f64 (SFadd 53 1024 tempval f64_half) in
  option_map to_uint16 (int_of_float tempval).

(** ** Configuration: the values iniparser hands to [main] *)

Record IniValues : Type := {
  gpio_COS : Z;
  gpio_network : Z;
  gpio_shutdown : Z;
  enable_network_status_LED : bool;
  enable_shutdown_switch : bool;
  COS_poll_loop_interval_ms : Z;
  COS_timeout_ms : Z;
  COS_timeout_enable : bool;
  network_check_divisor : Z;
  shutdown_switch_activate_count : Z
}.

(** The file gives no key: every lookup returns its default. *)
Definition default_ini : IniValues := {|
  gpio_COS := DEFAULT_EXTCOS_GPIO;
  gpio_network := DEFAULT_NETWORK_GPIO;
  gpio_shutdown := DEFAULT_SHUTDOWN_GPIO;
  enable_network_status_LED := false;
  enable_shutdown_switch := false;
  COS_poll_loop_interval_ms := DEFAULT_LOOP_DELAY;
  COS_timeout_ms := DEFAULT_COS_TIMEOUT_MS;
  COS_timeout_enable := true;
  network_check_divisor := DEFAULT_NET_CHECK_DIVISOR;
  shutdown_switch_activate_count := DEFAULT_SD_ACTIVATE_COUNT
|}.

(** The locals of [main] that stay fixed once the loop starts, together with
    the global [networkStatusPin]. *)
Record Locals : Type := {
  ExtCOSPin : Z;
  networkStatusPin : Z;
  shutdownSwitchPin : Z;
  networkStatusOn : bool;
  shutdownSwitchEnable : bool;
  LoopDelayMs : Z;
  TimeoutMs : Z;
  COStimeoutEnable : bool;
  netCheckDivisor : Z;
  SDswitchActivateCount : Z;
  TimeoutCountCOS : Z
}.

(** Lines 152-161: the assignments truncate to the declared widths. *)
Definition read_config (ini : IniValues) (tc : Z) : Locals := {|
  ExtCOSPin := to_uint16 (gpio_COS ini);
  networkStatusPin := to_uint16 (gpio_network ini);
  shutdownSwitchPin := to_uint16 (gpio_shutdown ini);
  networkStatusOn := enable_network_status_LED ini;
  shutdownSwitchEnable := enable_shutdown_switch ini;
  LoopDelayMs := to_uint16 (COS_poll_loop_interval_ms ini);
  TimeoutMs := to_uint32 (COS_timeout_ms ini);
  COStimeoutEnable := COS_timeout_enable ini;
  netCheckDivisor := to_uint16 (network_check_divisor ini);
  SDswitchActivateCount := to_uint16 (shutdown_switch_activate_count ini);
  TimeoutCountCOS := tc
|}.

Definition timeout_count_of (ini : IniValues) : option Z :=
  compute_timeout_count (to_uint32 (COS_timeout_ms ini))
                        (to_uint16 (COS_poll_loop_interval_ms ini)).

(** ** State of the polling loop *)

Record CosState : Type := {
  LastCOSState : bool;
  TimeoutCount : Z                    (* uint16_t *)
}.

Record LoopState : Type := {
  cos : CosState;
  SDswitchPressedCount : Z;           (* uint16_t *)
  loopCount : Z;                      (* unsigned int *)
  lastWrite : Z                       (* static uint8_t of wifiLightHandler *)
}.

(** What the environment supplies on one pass of the loop: the two pin reads
    and the address [getIPaddress] would store if it is called. *)
Record TickInput : Type := {
  cos_pin : bool;
  shutdown_pin : bool;
  ip_address : string
}.

(** [TimeoutCount=-1] on a [uint16_t]. *)
Definition TIMEOUT_IDLE : Z := to_uint16 (-1).

(** ** wifiLightHandler (lines 97-116) *)

Definition wifiLightHandler (pin : Z) (lastWrite : Z) (IPaddr : string)
  : list event * Z :=
  let IPlen := Z.of_nat (String.length IPaddr) in
  if (IPlen =? 0) && (lastWrite =? HIGH) then
    ([EgetIPaddress; EdigitalWrite pin LOW], HIGH)
  else if negb (IPlen =? 0) && (lastWrite =? LOW) then
    ([EgetIPaddress; EdigitalWrite pin HIGH], LOW)
  else
    ([EgetIPaddress], lastWrite).

(** ** COS change detection and stuck-high timeout (lines 216-252) *)

Definition cos_check (L : Locals) (c : CosState) (CurrCOSState : bool)
  : list event * CosState :=
  if negb (Bool.eqb (LastCOSState c) CurrCOSState) then
    if CurrCOSState then
      ([Esystem KeyCmd],
       {| LastCOSState := CurrCOSState; TimeoutCount := TimeoutCountCOS L |})
    else
      ([Esystem UnkeyCmd],
       {| LastCOSState := CurrCOSState; TimeoutCount := TimeoutCount c |})
  else if COStimeoutEnable L then
    if (0 <? TimeoutCount c) && CurrCOSState then
      ([], {| LastCOSState := LastCOSState c;
              TimeoutCount := to_uint16 (TimeoutCount c - 1) |})
    else if TimeoutCount c =? 0 then
      ([Eprintf CosTimeoutMsg []; Esystem UnkeyCmd],
       {| LastCOSState := LastCOSState c; TimeoutCount := TIMEOUT_IDLE |})
    else ([], c)
  else ([], c).

(** The COS part alone over a sequence of samples: the calls made on each
    pass, and the state left. *)
Fixpoint cos_run (L : Locals) (c : CosState) (samples : list bool)
  : list (list event) * CosState :=
  match samples with
  | [] => ([], c)
  | s :: rest =>
      let '(evs, c1) := cos_check L c s in
      let '(tr, c2) := cos_run L c1 rest in
      (evs :: tr, c2)
  end.

(** ** One pass of the loop body (lines 216-277) *)

Inductive flow : Type :=
| Continue (st : LoopState)
| Break
| DivisionByZero.                     (* [loopCount++ % netCheckDivisor] with divisor 0 *)

Definition shutdown_sequence (L : Locals) : list event :=
  [ EdigitalWrite (networkStatusPin L) HIGH;
    Eprintf ShuttingDownMsg [];
    Esystem ShutdownScript;
    Edelay 5000;
    Esystem PoweroffCmd ].

(** Lines 274-277, reached when the shutdown sequence did not run. *)
Definition network_and_delay (L : Locals) (st : LoopState) (c : CosState)
    (pressed : Z) (inp : TickInput) (done : list event) : list event * flow :=
  if netCheckDivisor L =? 0 then (done, DivisionByZero)
  else
    let due := (loopCount st mod netCheckDivisor L =? 0) && networkStatusOn L in
    let '(net, lw) :=
      if due then wifiLightHandler (networkStatusPin L) (lastWrite st) (ip_address inp)
      else ([], lastWrite st) in
    (done ++ net ++ [Edelay (LoopDelayMs L)],
     Continue {| cos := c;
                 SDswitchPressedCount := pressed;
                 loopCount := to_uint32 (loopCount st + 1);
                 lastWrite := lw |}).

Definition loop_body (L : Locals) (st : LoopState) (inp : TickInput)
  : list event * flow :=
  let '(cos_evs, c) := cos_check L (cos st) (cos_pin inp) in
  if negb (shutdown_pin inp) then
    (* digitalRead(shutdownSwitchPin)==LOW *)
    let pressed := to_uint16 (SDswitchPressedCount st + 1) in
    if SDswitchActivateCount L <? pressed then
      (cos_evs ++ shutdown_sequence L, Break)
    else network_and_delay L st c pressed inp cos_evs
  else network_and_delay L st c 0 inp cos_evs.

(** ** The loop, run over the inputs supplied *)

Inductive outcome : Type :=
| Exited (status : Z)                 (* exit() *)
| Returned (value : Z)                (* return from main *)
| Undefined                           (* behaviour not defined by C *)
| Polling (st : LoopState).           (* inputs used up, loop still running *)

Fixpoint run_loop (L : Locals) (st : LoopState) (ticks : list TickInput)
  : list event * outcome :=
  match ticks with
  | [] => ([], Polling st)
  | inp :: rest =>
      match loop_body L st inp with
      | (evs, Continue st1) =>
          let '(more, out) := run_loop L st1 rest in (evs ++ more, out)
      | (evs, Break) => (evs ++ [Einiparser_freedict], Returned RETVAL_OK)
      | (evs, DivisionByZero) => (evs, Undefined)
      end
  end.

(** ** main (lines 132-285) *)

(** What [main] finds when it starts. *)
Record World : Type := {
  ini : IniValues;
  asterisk_ctl_exists : bool;         (* access("/var/run/asterisk.ctl", F_OK) == 0 *)
  initial_COS : bool;                 (* digitalRead(ExtCOSPin) of line 209 *)
  SDswitchPressedCount_garbage : Z    (* the local is declared without initialiser *)
}.

Definition on_off (b : bool) : string := if b then "ENABLED" else "DISABLED".

Definition print_config (L : Locals) : list event :=
  [ Eprintf (nl ++ "COSmon version %s" ++ nl) [PStr strVersion];
    Eprintf ("Config:" ++ nl) [];
    Eprintf (tab ++ "COS GPIO number: %u" ++ nl) [PInt (ExtCOSPin L)];
    (if COStimeoutEnable L
     then Eprintf (tab ++ "COS timeout (ms): %u" ++ nl) [PInt (TimeoutMs L)]
     else Eprintf (tab ++ "COS timeout disabled" ++ nl) []);
    Eprintf (tab ++ "COS check loop delay (ms): %u" ++ nl) [PInt (LoopDelayMs L)];
    Eprintf (tab ++ "Shutdown switch: %s" ++ nl) [PStr (on_off (shutdownSwitchEnable L))];
    Eprintf (tab ++ "Network connected Indicator: %s" ++ nl) [PStr (on_off (networkStatusOn L))];
    Eprintf (tab ++ "Network status GPIO number: %u" ++ nl) [PInt (networkStatusPin L)];
    Eprintf (tab ++ "Shutdwon switch GPIO number: %d" ++ nl) [PInt (shutdownSwitchPin L)];
    Eprintf (tab ++ "Network check divisor: %u" ++ nl) [PInt (netCheckDivisor L)];
    Eprintf nl [] ]%string.

(** Lines 199-212. *)
Definition setup_pins (L : Locals) : list event :=
  [ EwiringPiSetup;
    EpinMode (ExtCOSPin L) INPUT;
    EpinMode (networkStatusPin L) OUTPUT;
    EdigitalWrite (networkStatusPin L) LOW;
    EpinMode (shutdownSwitchPin L) INPUT;
    EpullUpDnControl (shutdownSwitchPin L) PUD_UP;
    Eprintf ("COSmon running" ++ nl)%string [];
    Esystem UnkeyCmd ].

Definition initial_state (w : World) : LoopState := {|
  cos := {| LastCOSState := initial_COS w; TimeoutCount := TIMEOUT_IDLE |};
  SDswitchPressedCount := to_uint16 (SDswitchPressedCount_garbage w);
  loopCount := 0;
  lastWrite := LOW
|}.

Definition main (w : World) (ticks : list TickInput) : list event * outcome :=
  if negb (asterisk_ctl_exists w) then
    ([EinitIni ConfPath; Efprintf_stderr AsteriskMissingMsg],
     Exited (to_uint8 (-1)))
  else
    (* the count is computed after the configuration is printed *)
    match timeout_count_of (ini w) with
    | None => (EinitIni ConfPath :: print_config (read_config (ini w) 0), Undefined)
    | Some tc =>
        let L := read_config (ini w) tc in
        let '(evs, out) := run_loop L (initial_state w) ticks in
        (EinitIni ConfPath :: print_config L ++ setup_pins L ++ evs, out)
    end.

(** ** Runs used in the statements *)

(** Consecutive connectivity checks: [wifiLightHandler] called once per
    address, the static [lastWrite] carried from call to call. *)
Fixpoint net_checks (pin lw : Z) (addrs : list string) : list (list event) * Z :=
  match addrs with
  | [] => ([], lw)
  | a :: rest =>
      let '(evs, lw1) := wifiLightHandler pin lw a in
      let '(tr, lw2) := net_checks pin lw1 rest in
      (evs :: tr, lw2)
  end.

Definition default_locals : Locals := read_config default_ini 1500.

(** The COS state [main] enters the loop with when the pin reads [LOW]. *)
Definition cos_idle : CosState :=
  {| LastCOSState := false; TimeoutCount := TIMEOUT_IDLE |}.

Definition default_world : World := {|
  ini := default_ini;
  asterisk_ctl_exists := true;
  initial_COS := false;
  SDswitchPressedCount_garbage := 0
|}.

Definition pressed_tick : TickInput :=
  {| cos_pin := false; shutdown_pin := false; ip_address := EmptyString |}.

Definition released_tick : TickInput :=
  {| cos_pin := false; shutdown_pin := true; ip_address := EmptyString |}.

Definition timeout_unkey : list event :=
  [Eprintf CosTimeoutMsg []; Esystem UnkeyCmd].

(** Concrete configurations and inputs. *)

Definition timeout_off_locals : Locals :=
  read_config
    {| gpio_COS := DEFAULT_EXTCOS_GPIO;
       gpio_network := DEFAULT_NETWORK_GPIO;
       gpio_shutdown := DEFAULT_SHUTDOWN_GPIO;
       enable_network_status_LED := false;
       enable_shutdown_switch := false;
       COS_poll_loop_interval_ms := DEFAULT_LOOP_DELAY;
       COS_timeout_ms := DEFAULT_COS_TIMEOUT_MS;
       COS_timeout_enable := false;
       network_check_divisor := DEFAULT_NET_CHECK_DIVISOR;
       shutdown_switch_activate_count := DEFAULT_SD_ACTIVATE_COUNT |}
    1500.

Definition garbage_world : World := {|
  ini := default_ini;
  asterisk_ctl_exists := true;
  initial_COS := false;
  SDswitchPressedCount_garbage := 1
|}.

Definition led_locals : Locals :=
  read_config
    {| gpio_COS := DEFAULT_EXTCOS_GPIO;
       gpio_network := DEFAULT_NETWORK_GPIO;
       gpio_shutdown := DEFAULT_SHUTDOWN_GPIO;
       enable_network_status_LED := true;
       enable_shutdown_switch := false;
       COS_poll_loop_interval_ms := DEFAULT_LOOP_DELAY;
       COS_timeout_ms := DEFAULT_COS_TIMEOUT_MS;
       COS_timeout_enable := true;
       network_check_divisor := DEFAULT_NET_CHECK_DIVISOR;
       shutdown_switch_activate_count := DEFAULT_SD_ACTIVATE_COUNT |}
    1500.

Definition connected_tick : TickInput :=
  {| cos_pin := false; shutdown_pin := true; ip_address := "192.168.1.5" |}.

Definition absent_world : World := {|
  ini := default_ini;
  asterisk_ctl_exists := false;
  initial_COS := false;
  SDswitchPressedCount_garbage := 0
|}.

(** The same locals with [shutdownSwitchEnable] replaced. *)
Definition with_shutdown_enable (b : bool) (L : Locals) : Locals := {|
  ExtCOSPin := ExtCOSPin L;
  networkStatusPin := networkStatusPin L;
  shutdownSwitchPin := shutdownSwitchPin L;
  networkStatusOn := networkStatusOn L;
  shutdownSwitchEnable := b;
  LoopDelayMs := LoopDelayMs L;
  TimeoutMs := TimeoutMs L;
  COStimeoutEnable := COStimeoutEnable L;
  netCheckDivisor := netCheckDivisor L;
  SDswitchActivateCount := SDswitchActivateCount L;
  TimeoutCountCOS := TimeoutCountCOS L
|}.

(** ** Counting commands and edges over a run *)

Definition is_key (e : event) : bool :=
  match e with
  | Esystem c => String.eqb c KeyCmd
  | _ => false
  end.

Definition is_unkey (e : event) : bool :=
  match e with
  | Esystem c => String.eqb c UnkeyCmd
  | _ => false
  end.

Definition is_timeout_msg (e : event) : bool :=
  match e with
  | Eprintf f _ => String.eqb f CosTimeoutMsg
  | _ => false
  end.

Definition is_getIP (e : event) : bool :=
  match e with
  | EgetIPaddress => true
  | _ => false
  end.

(** How many of the calls of a run, pass by pass, satisfy [p]. *)
Definition count_calls (p : event -> bool) (tr : list (list event)) : nat :=
  List.length (filter p (List.concat tr)).

(** Samples that are high after a low level, [prev] being the level before
    the first sample; and the converse. *)
Fixpoint rising_edges (prev : bool) (samples : list bool) : nat :=
  match samples with
  | [] => 0
  | s :: rest => ((if negb prev && s then 1 else 0) + rising_edges s rest)%nat
  end.

Fixpoint falling_edges (prev : bool) (samples : list bool) : nat :=
  match samples with
  | [] => 0
  | s :: rest => ((if prev && negb s then 1 else 0) + falling_edges s rest)%nat
  end.

(** No more than [limit] consecutive high samples, [run] of them having
    just been seen. *)
Fixpoint runs_within (limit run : nat) (samples : list bool) : bool :=
  match samples with
  | [] => true
  | true :: rest => (S run <=? limit)%nat && runs_within limit (S run) rest
  | false :: rest => runs_within limit 0 rest
  end.

(** The state between passes when no high run has outlasted the count:
    while low the count is not zero; [run] passes into a high run the count
    is still positive. *)
Definition count_alive (L : Locals) (c : CosState) (run : nat) : Prop :=
  if LastCOSState c
  then (1 <= Z.of_nat run <= TimeoutCountCOS L) /\
       TimeoutCountCOS L - (Z.of_nat run - 1) <= TimeoutCount c < 2 ^ 16
  else run = 0%nat /\ TimeoutCount c <> 0.

(** Configurations at the edges of the value ranges. *)

Definition world_of (i : IniValues) : World := {|
  ini := i;
  asterisk_ctl_exists := true;
  initial_COS := false;
  SDswitchPressedCount_garbage := 0
|}.

Definition ini_activate_count_minus_one : IniValues := {|
  gpio_COS := DEFAULT_EXTCOS_GPIO;
  gpio_network := DEFAULT_NETWORK_GPIO;
  gpio_shutdown := DEFAULT_SHUTDOWN_GPIO;
  enable_network_status_LED := false;
  enable_shutdown_switch := true;
  COS_poll_loop_interval_ms := DEFAULT_LOOP_DELAY;
  COS_timeout_ms := DEFAULT_COS_TIMEOUT_MS;
  COS_timeout_enable := true;
  network_check_divisor := DEFAULT_NET_CHECK_DIVISOR;
  shutdown_switch_activate_count := -1
|}.

Definition ini_zero_divisor : IniValues := {|
  gpio_COS := DEFAULT_EXTCOS_GPIO;
  gpio_network := DEFAULT_NETWORK_GPIO;
  gpio_shutdown := DEFAULT_SHUTDOWN_GPIO;
  enable_network_status_LED := false;
  enable_shutdown_switch := false;
  COS_poll_loop_interval_ms := DEFAULT_LOOP_DELAY;
  COS_timeout_ms := DEFAULT_COS_TIMEOUT_MS;
  COS_timeout_enable := true;
  network_check_divisor := 0;
  shutdown_switch_activate_count := DEFAULT_SD_ACTIVATE_COUNT
|}.

Definition ini_zero_interval : IniValues := {|
  gpio_COS := DEFAULT_EXTCOS_GPIO;
  gpio_network := DEFAULT_NETWORK_GPIO;
  gpio_shutdown := DEFAULT_SHUTDOWN_GPIO;
  enable_network_status_LED := false;
  enable_shutdown_switch := false;
  COS_poll_loop_interval_ms := 0;
  COS_timeout_ms := DEFAULT_COS_TIMEOUT_MS;
  COS_timeout_enable := true;
  network_check_divisor := DEFAULT_NET_CHECK_DIVISOR;
  shutdown_switch_activate_count := DEFAULT_SD_ACTIVATE_COUNT
|}.

Definition ini_led : IniValues := {|
  gpio_COS := DEFAULT_EXTCOS_GPIO;
  gpio_network := DEFAULT_NETWORK_GPIO;
  gpio_shutdown := DEFAULT_SHUTDOWN_GPIO;
  enable_network_status_LED := true;
  enable_shutdown_switch := false;
  COS_poll_loop_interval_ms := DEFAULT_LOOP_DELAY;
  COS_timeout_ms := DEFAULT_COS_TIMEOUT_MS;
  COS_timeout_enable := true;
  network_check_divisor := DEFAULT_NET_CHECK_DIVISOR;
  shutdown_switch_activate_count := DEFAULT_SD_ACTIVATE_COUNT
|}.

(** The same world with [enable_network_status_LED] replaced. *)
Definition with_network_LED (b : bool) (w : World) : World := {|
  ini := {|
    gpio_COS := gpio_COS (ini w);
    gpio_network := gpio_network (ini w);
    gpio_shutdown := gpio_shutdown (ini w);
    enable_network_status_LED := b;
    enable_shutdown_switch := enable_shutdown_switch (ini w);
    COS_poll_loop_interval_ms := COS_poll_loop_interval_ms (ini w);
    COS_timeout_ms := COS_timeout_ms (ini w);
    COS_timeout_enable := COS_timeout_enable (ini w);
    network_check_divisor := network_check_divisor (ini w);
    shutdown_switch_activate_count := shutdown_switch_activate_count (ini w)
  |};
  asterisk_ctl_exists := asterisk_ctl_exists w;
  initial_COS := initial_COS w;
  SDswitchPressedCount_garbage := SDswitchPressedCount_garbage w
|}.

(** A pass with a carrier, the switch released and an address present. *)
Definition carrier_tick : TickInput :=
  {| cos_pin := true; shutdown_pin := true; ip_address := "192.168.1.5" |}.

(** * Properties *)

(** ** Strings and events *)

Lemma KeyCmd_neq_UnkeyCmd : KeyCmd <> UnkeyCmd.
Proof. intro H. vm_compute in H. discriminate H. Qed.

Lemma unkey_in_key : ~ In (Esystem UnkeyCmd) [Esystem KeyCmd].
Proof.
  intros [H | []]. injection H as H. now apply KeyCmd_neq_UnkeyCmd.
Qed.

(** ** The COS check *)

Section CosCheck.
Variable L : Locals.

(** After a pass, [LastCOSState] is the sample just read. *)
Lemma cos_check_last (c : CosState) (cur : bool) :
  LastCOSState (snd (cos_check L c cur)) = cur.
Proof.
  unfold cos_check.
  destruct (LastCOSState c) eqn:El, cur; cbn;
    repeat (match goal with |- context [if ?b then _ else _] => destruct b end);
    cbn; auto.
Qed.

Lemma cos_check_rising (c : CosState) :
  LastCOSState c = false ->
  cos_check L c true =
    ([Esystem KeyCmd],
     {| LastCOSState := true; TimeoutCount := TimeoutCountCOS L |}).
Proof. intros H. unfold cos_check. rewrite H. reflexivity. Qed.

Lemma cos_check_falling (c : CosState) :
  LastCOSState c = true ->
  cos_check L c false =
    ([Esystem UnkeyCmd],
     {| LastCOSState := false; TimeoutCount := TimeoutCount c |}).
Proof. intros H. unfold cos_check. rewrite H. reflexivity. Qed.

(** Level low, no edge, count not zero: nothing happens. *)
Lemma cos_check_low_idle (c : CosState) :
  LastCOSState c = false -> TimeoutCount c <> 0 ->
  cos_check L c false = ([], c).
Proof.
  intros Hl Hn. unfold cos_check. rewrite Hl. cbn.
  rewrite andb_false_r.
  destruct (Z.eqb_spec (TimeoutCount c) 0); [contradiction|].
  now destruct (COStimeoutEnable L).
Qed.

Lemma cos_run_app (xs ys : list bool) : forall c,
  cos_run L c (xs ++ ys) =
    (fst (cos_run L c xs) ++ fst (cos_run L (snd (cos_run L c xs)) ys),
     snd (cos_run L (snd (cos_run L c xs)) ys)).
Proof.
  induction xs as [|x xs IH]; intros c; cbn.
  - now destruct (cos_run L c ys).
  - destruct (cos_check L c x) as [evs c1].
    rewrite IH.
    destruct (cos_run L c1 xs) as [t1 c2]; cbn.
    now destruct (cos_run L c2 ys).
Qed.

Lemma cos_run_low_idle (n : nat) (c : CosState) :
  LastCOSState c = false -> TimeoutCount c <> 0 ->
  cos_run L c (repeat false n) = (repeat [] n, c).
Proof.
  intros Hl Hn. induction n as [|n IH]; cbn; [reflexivity|].
  rewrite cos_check_low_idle by assumption. now rewrite IH.
Qed.

Section TimeoutEnabled.
Hypothesis enabled : COStimeoutEnable L = true.

(** Level high, no edge, count positive: one tick is counted off. *)
Lemma cos_check_countdown (t : Z) :
  0 < t < 2 ^ 16 ->
  cos_check L {| LastCOSState := true; TimeoutCount := t |} true =
    ([], {| LastCOSState := true; TimeoutCount := t - 1 |}).
Proof.
  intros Ht. unfold cos_check; cbn. rewrite enabled.
  destruct (Z.ltb_spec 0 t); [|lia]. cbn.
  unfold to_uint16. rewrite Z.mod_small by lia. reflexivity.
Qed.

(** No edge, count zero: the timeout unkey, and the count wraps to 65535. *)
Lemma cos_check_fire (lvl : bool) :
  cos_check L {| LastCOSState := lvl; TimeoutCount := 0 |} lvl =
    (timeout_unkey, {| LastCOSState := lvl; TimeoutCount := 65535 |}).
Proof.
  unfold cos_check; cbn. rewrite eqb_reflx, enabled. reflexivity.
Qed.

Lemma cos_run_countdown (n : nat) : forall t,
  Z.of_nat n <= t < 2 ^ 16 ->
  cos_run L {| LastCOSState := true; TimeoutCount := t |} (repeat true n) =
    (repeat [] n, {| LastCOSState := true; TimeoutCount := t - Z.of_nat n |}).
Proof.
  induction n as [|n IH]; intros t Ht.
  - cbn. now rewrite Z.sub_0_r.
  - cbn [repeat cos_run].
    rewrite cos_check_countdown by lia.
    rewrite IH by lia.
    replace (t - 1 - Z.of_nat n) with (t - Z.of_nat (S n)) by lia.
    reflexivity.
Qed.

(** Held high from a rising edge: key, [T] silent passes, the timeout
    unkey, then 65535 silent passes that bring the count to zero again. *)
Lemma cos_run_held_high (c : CosState) :
  LastCOSState c = false ->
  0 <= TimeoutCountCOS L < 2 ^ 16 ->
  let T := Z.to_nat (TimeoutCountCOS L) in
  let W := Z.to_nat 65535 in
  cos_run L c (repeat true (1 + T + 1 + W)) =
    ([Esystem KeyCmd] :: repeat [] T ++ timeout_unkey :: repeat [] W,
     {| LastCOSState := true; TimeoutCount := 0 |}).
Proof.
  intros Hl HT T W.
  rewrite !repeat_app, <- !app_assoc.
  change (repeat true 1) with [true].
  cbn [app cos_run]. rewrite cos_check_rising by assumption.
  rewrite cos_run_app, cos_run_countdown by (subst T; lia).
  cbn [fst snd].
  replace (TimeoutCountCOS L - Z.of_nat T) with 0 by (subst T; lia).
  cbn [app cos_run]. rewrite cos_check_fire.
  rewrite cos_run_countdown by (subst W; lia).
  replace (65535 - Z.of_nat W) with 0 by (subst W; lia).
  reflexivity.
Qed.

(** One more pass at the same level: the timeout unkey a second time. *)
Lemma cos_run_stuck_high (c : CosState) :
  LastCOSState c = false ->
  0 <= TimeoutCountCOS L < 2 ^ 16 ->
  let T := Z.to_nat (TimeoutCountCOS L) in
  let W := Z.to_nat 65535 in
  fst (cos_run L c (repeat true (1 + T + 1 + W + 1))) =
    [Esystem KeyCmd] :: repeat [] T ++ timeout_unkey ::
    repeat [] W ++ [timeout_unkey].
Proof.
  intros Hl HT T W.
  rewrite (repeat_app _ _ 1), cos_run_app.
  subst T W. rewrite cos_run_held_high by assumption.
  cbn [fst snd repeat cos_run]. rewrite cos_check_fire.
  cbn [fst]. rewrite <- app_comm_cons, <- app_assoc. reflexivity.
Qed.
(** The pin already high when [main] enters the loop: no edge is seen, the
    idle value 65535 is counted down, and the timeout unkey comes on pass
    65535 although the key command was never issued. *)
Lemma cos_run_high_at_startup :
  let W := Z.to_nat 65535 in
  fst (cos_run L {| LastCOSState := true; TimeoutCount := TIMEOUT_IDLE |}
         (repeat true (W + 1))) =
    repeat [] W ++ [timeout_unkey].
Proof.
  intros W. rewrite repeat_app, cos_run_app.
  change TIMEOUT_IDLE with 65535.
  rewrite cos_run_countdown by (subst W; lia).
  replace (65535 - Z.of_nat W) with 0 by (subst W; lia).
  cbn [fst snd repeat cos_run]. rewrite cos_check_fire. reflexivity.
Qed.
End TimeoutEnabled.
End CosCheck.

(** ** Claims on the COS watchdog *)

(** With the timeout disabled, one pass issues the unkey command only on a
    falling edge. *)
Lemma cos_check_unkey_disabled (L : Locals) (c : CosState) (cur : bool) :
  COStimeoutEnable L = false ->
  In (Esystem UnkeyCmd) (fst (cos_check L c cur)) ->
  LastCOSState c = true /\ cur = false.
Proof.
  intros Hoff. unfold cos_check. rewrite Hoff.
  destruct (LastCOSState c), cur; cbn; intros H; auto;
    try contradiction.
  now apply unkey_in_key in H.
Qed.

(** C8: with [COStimeoutEnable] false, for every sample sequence and every
    pass of the COS check, the unkey command is issued only on a falling
    edge: the sample of that pass is inactive and the level before it (the
    previous sample, or the level read at start-up) was active. *)
Theorem C8_unkey_only_on_falling_edge (L : Locals) (samples : list bool) :
  COStimeoutEnable L = false ->
  forall (c : CosState) (i : nat) (evs : list event),
    nth_error (fst (cos_run L c samples)) i = Some evs ->
    In (Esystem UnkeyCmd) evs ->
    nth_error (LastCOSState c :: samples) i = Some true /\
    nth_error samples i = Some false.
Proof.
  intros Hoff. induction samples as [|s rest IH]; intros c i evs Hnth Hin.
  - destruct i; discriminate Hnth.
  - cbn [cos_run] in Hnth.
    pose proof (cos_check_last L c s) as Hlast.
    pose proof (cos_check_unkey_disabled L c s Hoff) as Hstep.
    destruct (cos_check L c s) as [e1 c1]; cbn [fst snd] in *.
    destruct (cos_run L c1 rest) as [tr c2] eqn:Hrun.
    destruct i as [|i].
    + cbn in Hnth. injection Hnth as <-.
      destruct (Hstep Hin) as [-> ->]. now split.
    + cbn [nth_error fst] in Hnth |- *.
      specialize (IH c1 i evs). rewrite Hrun, Hlast in IH.
      now apply IH.
Qed.

Lemma C8_unkey_only_on_falling_edge_witness :
  nth_error (LastCOSState cos_idle :: [true; true; false]) 2 = Some true /\
  nth_error [true; true; false] 2 = Some false.
Proof.
  apply (C8_unkey_only_on_falling_edge timeout_off_locals [true; true; false]
           eq_refl cos_idle 2 [Esystem UnkeyCmd]).
  - reflexivity.
  - simpl. auto.
Defined.

(** C2, at a level held active from a rising edge under the default
    configuration (sample period 100 ms, count 1500): the key command on
    pass 0, the timeout unkey on pass 1501, and, with no edge in between,
    the timeout unkey again on pass 67037, after the 16-bit count has run
    down from 65535. *)
Theorem C2_timeout_unkey_repeats :
  fst (cos_run default_locals cos_idle (repeat true (Z.to_nat 67038))) =
    [Esystem KeyCmd] :: repeat [] (Z.to_nat 1500) ++ timeout_unkey ::
    repeat [] (Z.to_nat 65535) ++ [timeout_unkey].
Proof.
  replace (Z.to_nat 67038)
    with (1 + Z.to_nat 1500 + 1 + Z.to_nat 65535 + 1)%nat by lia.
  apply (cos_run_stuck_high default_locals eq_refl cos_idle eq_refl).
  cbn. lia.
Qed.

(** With the timeout enabled, a count that is zero when the level drops is
    found zero on the next pass, whose level is low: the falling edge gives
    the unkey command, and the pass after it the timeout message and the
    unkey command again. *)
Lemma cos_run_zero_at_falling_edge (L : Locals) (c : CosState) :
  COStimeoutEnable L = true ->
  LastCOSState c = true ->
  TimeoutCount c = 0 ->
  cos_run L c [false; false] =
    ([[Esystem UnkeyCmd]; timeout_unkey],
     {| LastCOSState := false; TimeoutCount := 65535 |}).
Proof.
  intros Hen Hl Hz. cbn [cos_run].
  rewrite cos_check_falling by assumption. rewrite Hz.
  rewrite (cos_check_fire L Hen false). reflexivity.
Qed.

(** C3, at a level that rises on pass 0, stays high through pass 1500 and
    drops on pass 1501, under the default configuration (count 1500): the
    falling edge gives the unkey command and leaves the count at 0, it is
    not set to the idle value 65535; on pass 1502, the level still low and
    no rising edge since, the timeout message and the unkey command are
    issued. *)
Theorem C3_timeout_unkey_while_low :
  cos_run default_locals cos_idle (true :: repeat true 1500 ++ [false]) =
    ([Esystem KeyCmd] :: repeat [] 1500 ++ [[Esystem UnkeyCmd]],
     {| LastCOSState := false; TimeoutCount := 0 |}) /\
  fst (cos_run default_locals cos_idle
         (true :: repeat true 1500 ++ [false; false])) =
    [Esystem KeyCmd] :: repeat [] 1500 ++ [[Esystem UnkeyCmd]; timeout_unkey].
Proof. split; vm_compute; reflexivity. Qed.

(** C4, refuted as stated: the count is 1500, but on pass 1500 of a level
    held active since pass 0 no command is issued; the timeout unkey comes
    on pass 1501. *)
Lemma C4_no_unkey_at_tick_1500 :
  timeout_count_of default_ini = Some 1500 /\
  let tr := fst (cos_run default_locals cos_idle (repeat true 1502)) in
  nth 1500 tr [] = [] /\ nth 1501 tr [] = timeout_unkey.
Proof. vm_compute. auto. Qed.

(** C4, amended: with a 100 ms loop delay and a 150000 ms timeout the count
    is 1500, and a level that goes active on pass 0 and stays active gives
    the key command on pass 0, the timeout unkey on pass 1501, and no
    command on any other pass up to pass 67036. *)
Theorem C4_default_timeout_scenario (c : CosState) :
  LastCOSState c = false ->
  compute_timeout_count 150000 100 = Some 1500 /\
  option_map (read_config default_ini) (timeout_count_of default_ini) =
    Some default_locals /\
  fst (cos_run default_locals c (repeat true (Z.to_nat 67037))) =
    [Esystem KeyCmd] :: repeat [] (Z.to_nat 1500) ++ timeout_unkey ::
    repeat [] (Z.to_nat 65535).
Proof.
  intros Hl. split; [reflexivity|]. split; [reflexivity|].
  replace (Z.to_nat 67037)
    with (1 + Z.to_nat 1500 + 1 + Z.to_nat 65535)%nat by lia.
  assert (Hrange : 0 <= TimeoutCountCOS default_locals < 2 ^ 16) by (cbn; lia).
  pose proof (cos_run_held_high default_locals eq_refl c Hl Hrange) as Hrun.
  cbv zeta in Hrun.
  change (TimeoutCountCOS default_locals) with 1500 in Hrun.
  now rewrite Hrun.
Qed.

Lemma C4_default_timeout_scenario_witness :
  compute_timeout_count 150000 100 = Some 1500 /\
  option_map (read_config default_ini) (timeout_count_of default_ini) =
    Some default_locals /\
  fst (cos_run default_locals cos_idle (repeat true (Z.to_nat 67037))) =
    [Esystem KeyCmd] :: repeat [] (Z.to_nat 1500) ++ timeout_unkey ::
    repeat [] (Z.to_nat 65535).
Proof. apply (C4_default_timeout_scenario cos_idle). reflexivity. Defined.

(** ** The loop body *)

Lemma cos_check_events (L : Locals) (c : CosState) (cur : bool) :
  let evs := fst (cos_check L c cur) in
  evs = [] \/ evs = [Esystem KeyCmd] \/ evs = [Esystem UnkeyCmd] \/
  evs = timeout_unkey.
Proof.
  unfold cos_check.
  repeat (match goal with |- context [if ?b then _ else _] => destruct b end);
    cbn; auto.
Qed.

Lemma cos_check_no_pin_activity (L : Locals) (c : CosState) (cur : bool) :
  filter is_write (fst (cos_check L c cur)) = [] /\
  ~ In EgetIPaddress (fst (cos_check L c cur)).
Proof.
  destruct (cos_check_events L c cur) as [H | [H | [H | H]]];
    cbv zeta in H; rewrite H; cbn; split; auto;
    intros Hin; repeat (destruct Hin as [Hin | Hin]; [discriminate Hin|]);
    exact Hin.
Qed.

(** The loop body never reads [shutdownSwitchEnable]. *)
Lemma loop_body_ignores_shutdown_enable (b : bool) (L : Locals)
    (st : LoopState) (inp : TickInput) :
  loop_body (with_shutdown_enable b L) st inp = loop_body L st inp.
Proof. reflexivity. Qed.

Lemma network_and_delay_continue (L : Locals) (st : LoopState) (c : CosState)
    (pressed : Z) (inp : TickInput) (done : list event) :
  netCheckDivisor L <> 0 ->
  exists net lw,
    network_and_delay L st c pressed inp done =
      (done ++ net ++ [Edelay (LoopDelayMs L)],
       Continue {| cos := c; SDswitchPressedCount := pressed;
                   loopCount := to_uint32 (loopCount st + 1);
                   lastWrite := lw |}).
Proof.
  intros Hd. unfold network_and_delay.
  destruct (Z.eqb_spec (netCheckDivisor L) 0); [contradiction|].
  destruct ((loopCount st mod netCheckDivisor L =? 0) && networkStatusOn L).
  - destruct (wifiLightHandler _ _ _) as [net lw]. now exists net, lw.
  - now exists [], (lastWrite st).
Qed.

(** While the switch reads pressed and the threshold is not passed, the
    count grows by one per pass from whatever value it started with. *)
Lemma run_loop_pressed_count (L : Locals) :
  netCheckDivisor L <> 0 ->
  SDswitchActivateCount L < 2 ^ 16 ->
  forall (ticks : list TickInput) (st : LoopState),
    Forall (fun inp => shutdown_pin inp = false) ticks ->
    0 <= SDswitchPressedCount st ->
    SDswitchPressedCount st + Z.of_nat (List.length ticks)
      <= SDswitchActivateCount L ->
    exists evs st',
      run_loop L st ticks = (evs, Polling st') /\
      SDswitchPressedCount st' =
        SDswitchPressedCount st + Z.of_nat (List.length ticks).
Proof.
  intros Hd Hact. induction ticks as [|inp rest IH]; intros st Hall H0 Hle.
  - exists [], st. cbn. split; [reflexivity | lia].
  - inversion Hall as [|? ? Hp Hrest]; subst.
    cbn [List.length] in Hle. cbn [run_loop]. unfold loop_body.
    destruct (cos_check L (cos st) (cos_pin inp)) as [cev c].
    rewrite Hp. cbn [negb].
    unfold to_uint16. rewrite Z.mod_small by lia.
    destruct (Z.ltb_spec (SDswitchActivateCount L) (SDswitchPressedCount st + 1));
      [lia|].
    destruct (network_and_delay_continue L st c (SDswitchPressedCount st + 1)
                inp cev Hd) as (net & lw & ->).
    edestruct (IH {| cos := c;
                     SDswitchPressedCount := SDswitchPressedCount st + 1;
                     loopCount := to_uint32 (loopCount st + 1);
                     lastWrite := lw |}) as (evs & st' & Hrun & Hcnt);
      [assumption | cbn; lia | cbn; lia |].
    rewrite Hrun. eexists _, st'. split; [reflexivity|].
    rewrite Hcnt. cbn [SDswitchPressedCount List.length]. lia.
Qed.

(** ** Claims on the shutdown switch *)

(** C1, at the default configuration, where [enable_shutdown_switch] is off:
    after 31 passes with the switch pin low, the loop runs the shutdown
    script and the power-off command and leaves through [break]. *)
Theorem C1_shutdown_runs_when_disabled :
  shutdownSwitchEnable default_locals = false /\
  main default_world (repeat pressed_tick 31) =
    (EinitIni ConfPath :: print_config default_locals ++
     setup_pins default_locals ++
     repeat (Edelay 100) 30 ++
     [ EdigitalWrite 3 HIGH; Eprintf ShuttingDownMsg [];
       Esystem ShutdownScript; Edelay 5000; Esystem PoweroffCmd;
       Einiparser_freedict ],
     Returned RETVAL_OK).
Proof. split; vm_compute; reflexivity. Qed.

(** C7, when the storage of [SDswitchPressedCount] holds 1 as [main] starts:
    after one pressed sample the count is 2. *)
Theorem C7_count_starts_from_garbage :
  exists (evs : list event) (st : LoopState),
    main garbage_world [pressed_tick] = (evs, Polling st) /\
    SDswitchPressedCount st = 2.
Proof. do 2 eexists. split; vm_compute; reflexivity. Qed.

(** ** The network indicator *)

Lemma IPlen_zero (a : string) :
  (Z.of_nat (String.length a) =? 0) = true <-> a = EmptyString.
Proof.
  destruct a as [|ch a]; cbn [String.length].
  - split; reflexivity.
  - split; [|discriminate]. intros H. apply Z.eqb_eq in H. lia.
Qed.

Lemma wifiLightHandler_connected (pin : Z) (a : string) :
  a <> EmptyString ->
  wifiLightHandler pin LOW a = ([EgetIPaddress; EdigitalWrite pin HIGH], LOW).
Proof.
  intros Ha. unfold wifiLightHandler.
  destruct (Z.of_nat (String.length a) =? 0) eqn:E.
  - apply IPlen_zero in E. contradiction.
  - reflexivity.
Qed.

Lemma wifiLightHandler_disconnected (pin : Z) :
  wifiLightHandler pin LOW EmptyString = ([EgetIPaddress], LOW).
Proof. reflexivity. Qed.

(** [lastWrite] starts [LOW] and no call changes that. *)
Lemma wifiLightHandler_lastWrite (pin : Z) (a : string) :
  snd (wifiLightHandler pin LOW a) = LOW.
Proof.
  destruct a as [|ch a].
  - reflexivity.
  - now rewrite wifiLightHandler_connected.
Qed.

(** Every check that finds an address writes the pin. *)
Lemma net_checks_connected (pin : Z) (addrs : list string) :
  Forall (fun a => a <> EmptyString) addrs ->
  net_checks pin LOW addrs =
    (map (fun _ => [EgetIPaddress; EdigitalWrite pin HIGH]) addrs, LOW).
Proof.
  induction 1 as [|a rest Ha _ IH]; cbn [net_checks map]; [reflexivity|].
  rewrite wifiLightHandler_connected by assumption. now rewrite IH.
Qed.

(** ** Claims on the network indicator *)

(** C5, refuted as stated: a check that finds no address followed by one
    that finds 192.168.1.5 writes the pin [HIGH] on the second check. *)
Lemma C5_connected_writes_HIGH :
  fst (net_checks 3 LOW [EmptyString; "192.168.1.5"%string]) =
    [[EgetIPaddress]; [EgetIPaddress; EdigitalWrite 3 HIGH]] /\
  HIGH <> LOW.
Proof. split; [reflexivity | discriminate]. Qed.

(** C5, amended: whenever a connectivity check writes the output pin, it
    writes the network status pin, [LOW] when the address string is empty
    and [HIGH] when it is not. *)
Theorem C5_write_polarity (pin lw : Z) (addr : string) (p v : Z) :
  In (EdigitalWrite p v) (fst (wifiLightHandler pin lw addr)) ->
  p = pin /\
  ((addr = EmptyString /\ v = LOW) \/ (addr <> EmptyString /\ v = HIGH)).
Proof.
  unfold wifiLightHandler.
  destruct (Z.of_nat (String.length addr) =? 0) eqn:E.
  - apply IPlen_zero in E.
    destruct (lw =? HIGH); cbn.
    + intros [H | [H | []]]; [discriminate H|].
      injection H as <- <-. auto.
    + destruct (lw =? LOW); cbn; intros [H | []]; discriminate H.
  - assert (addr <> EmptyString) as Hne.
    { intros ->. discriminate E. }
    cbn. destruct (lw =? LOW); cbn.
    + intros [H | [H | []]]; [discriminate H|].
      injection H as <- <-. auto.
    + intros [H | []]; discriminate H.
Qed.

Lemma C5_write_polarity_witness :
  3 = 3 /\
  (("192.168.1.5"%string = EmptyString /\ HIGH = LOW) \/
   ("192.168.1.5"%string <> EmptyString /\ HIGH = HIGH)).
Proof.
  apply (C5_write_polarity 3 LOW "192.168.1.5" 3 HIGH).
  simpl. auto.
Defined.

(** C6, at two consecutive checks that both find 192.168.1.5: each of them
    writes the pin; and in the loop with the indicator enabled and the
    default divisor 20, passes 0 and 20 both write it. *)
Theorem C6_unchanged_connectivity_rewrites :
  fst (net_checks 3 LOW ["192.168.1.5"; "192.168.1.5"]%string) =
    [[EgetIPaddress; EdigitalWrite 3 HIGH];
     [EgetIPaddress; EdigitalWrite 3 HIGH]] /\
  filter is_write
    (fst (run_loop led_locals (initial_state default_world)
            (repeat connected_tick 21))) =
    [EdigitalWrite 3 HIGH; EdigitalWrite 3 HIGH].
Proof. split; vm_compute; reflexivity. Qed.

(** ** Claims on start-up and the network status pin *)

(** C9: when /var/run/asterisk.ctl is absent, [main] prints the error
    message on stderr and exits with status 255; it runs no pass of the
    loop, and none of its calls sets up or writes a pin or runs a command. *)
Theorem C9_exit_when_asterisk_absent (w : World) (ticks : list TickInput) :
  asterisk_ctl_exists w = false ->
  exists status : Z,
    main w ticks =
      ([EinitIni ConfPath; Efprintf_stderr AsteriskMissingMsg], Exited status) /\
    status <> 0 /\
    Forall (fun e => is_pin_setup e = false /\ is_command e = false)
           (fst (main w ticks)).
Proof.
  intros Habsent. exists 255. unfold main. rewrite Habsent. cbn [negb].
  split; [reflexivity|]. split; [discriminate|].
  cbn [fst]. repeat constructor.
Qed.

Lemma C9_exit_when_asterisk_absent_witness :
  exists status : Z,
    main absent_world [pressed_tick] =
      ([EinitIni ConfPath; Efprintf_stderr AsteriskMissingMsg], Exited status) /\
    status <> 0 /\
    Forall (fun e => is_pin_setup e = false /\ is_command e = false)
           (fst (main absent_world [pressed_tick])).
Proof.
  apply (C9_exit_when_asterisk_absent absent_world [pressed_tick]).
  reflexivity.
Defined.

(** * Further properties of the loop *)

(** ** Commands and edges *)

Lemma cos_check_counts (L : Locals) (c : CosState) (cur : bool) :
  let evs := fst (cos_check L c cur) in
  List.length (filter is_key evs) =
    (if negb (LastCOSState c) && cur then 1 else 0)%nat /\
  List.length (filter is_unkey evs) =
    ((if LastCOSState c && negb cur then 1 else 0) +
     List.length (filter is_timeout_msg evs))%nat.
Proof.
  unfold cos_check.
  destruct (LastCOSState c), cur; cbn [Bool.eqb negb andb];
    repeat (match goal with |- context [if ?b then _ else _] => destruct b end);
    cbv zeta; cbn [fst]; split; vm_compute; reflexivity.
Qed.

(** X1: whatever the configuration and the state, over any sample sequence
    the number of key commands issued equals the number of rising edges. *)
Theorem key_commands_are_rising_edges (L : Locals) (samples : list bool) :
  forall c : CosState,
    count_calls is_key (fst (cos_run L c samples)) =
    rising_edges (LastCOSState c) samples.
Proof.
  unfold count_calls.
  induction samples as [|s rest IH]; intros c; [reflexivity|].
  cbn [cos_run rising_edges].
  pose proof (cos_check_last L c s) as Hlast.
  pose proof (cos_check_counts L c s) as [Hk _].
  destruct (cos_check L c s) as [evs c1]; cbn [fst snd] in *.
  specialize (IH c1). rewrite Hlast in IH.
  destruct (cos_run L c1 rest) as [tr c2]; cbn [fst List.concat] in *.
  now rewrite filter_app, length_app, Hk, IH.
Qed.

(** X2: over any sample sequence the number of unkey commands issued equals
    the number of falling edges plus the number of timeout messages. *)
Theorem unkey_commands_are_falling_edges_and_timeouts
    (L : Locals) (samples : list bool) :
  forall c : CosState,
    count_calls is_unkey (fst (cos_run L c samples)) =
    (falling_edges (LastCOSState c) samples +
     count_calls is_timeout_msg (fst (cos_run L c samples)))%nat.
Proof.
  unfold count_calls.
  induction samples as [|s rest IH]; intros c; [reflexivity|].
  cbn [cos_run falling_edges].
  pose proof (cos_check_last L c s) as Hlast.
  pose proof (cos_check_counts L c s) as [_ Hu].
  destruct (cos_check L c s) as [evs c1]; cbn [fst snd] in *.
  specialize (IH c1). rewrite Hlast in IH.
  destruct (cos_run L c1 rest) as [tr c2]; cbn [fst List.concat] in *.
  rewrite !filter_app, !length_app, Hu, IH. lia.
Qed.

(** ** The stuck-high timeout for any count *)

(** X3: with the timeout enabled and a count [T] that fits 16 bits, a level
    that rises and then stays high gives the key command, then [T] passes
    without any call, then the timeout message and the unkey command on
    pass [T + 1]; the count is left at 65535. *)
Theorem timeout_one_pass_after_count (L : Locals) (c : CosState) :
  COStimeoutEnable L = true ->
  LastCOSState c = false ->
  0 <= TimeoutCountCOS L < 2 ^ 16 ->
  cos_run L c (repeat true (1 + Z.to_nat (TimeoutCountCOS L) + 1)) =
    ([Esystem KeyCmd] :: repeat [] (Z.to_nat (TimeoutCountCOS L)) ++
       [[Eprintf CosTimeoutMsg []; Esystem UnkeyCmd]],
     {| LastCOSState := true; TimeoutCount := 65535 |}).
Proof.
  intros Hen Hl HT.
  rewrite !repeat_app, <- !app_assoc.
  change (repeat true 1) with [true].
  cbn [app cos_run]. rewrite cos_check_rising by assumption.
  rewrite cos_run_app, cos_run_countdown by (assumption || lia).
  cbn [fst snd].
  replace (TimeoutCountCOS L - Z.of_nat (Z.to_nat (TimeoutCountCOS L)))
    with 0 by lia.
  cbn [cos_run]. rewrite cos_check_fire by assumption. reflexivity.
Qed.

Lemma timeout_one_pass_after_count_witness :
  cos_run default_locals cos_idle
    (repeat true (1 + Z.to_nat (TimeoutCountCOS default_locals) + 1)) =
    ([Esystem KeyCmd] :: repeat [] (Z.to_nat (TimeoutCountCOS default_locals)) ++
       [[Eprintf CosTimeoutMsg []; Esystem UnkeyCmd]],
     {| LastCOSState := true; TimeoutCount := 65535 |}).
Proof.
  apply (timeout_one_pass_after_count default_locals cos_idle);
    [reflexivity | reflexivity | cbn; lia].
Defined.

Lemma no_timeout_within_count (L : Locals) (samples : list bool) :
  0 < TimeoutCountCOS L < 2 ^ 16 ->
  forall (c : CosState) (run : nat),
    count_alive L c run ->
    runs_within (Z.to_nat (TimeoutCountCOS L)) run samples = true ->
    count_calls is_timeout_msg (fst (cos_run L c samples)) = 0%nat.
Proof.
  intros HT. unfold count_calls.
  induction samples as [|s rest IH]; intros c run Hinv Hruns; [reflexivity|].
  cbn [cos_run].
  assert (exists run', fst (cos_check L c s) = filter (fun e => negb (is_timeout_msg e)) (fst (cos_check L c s)) /\
            count_alive L (snd (cos_check L c s)) run' /\
            runs_within (Z.to_nat (TimeoutCountCOS L)) run' rest = true)
    as (run' & Hev & Hinv' & Hruns').
  { unfold count_alive in Hinv. unfold cos_check.
    destruct (LastCOSState c) eqn:El, s; cbn [Bool.eqb negb runs_within] in *.
    - (* high, stays high *)
      apply andb_prop in Hruns as [Hle Hruns]. apply Nat.leb_le in Hle.
      exists (S run). destruct Hinv as [H1 H2].
      destruct (COStimeoutEnable L).
      + destruct (Z.ltb_spec 0 (TimeoutCount c)); [|lia]. cbn [andb fst snd].
        split; [reflexivity|]. split; [|assumption].
        unfold count_alive; cbn [LastCOSState TimeoutCount].
        unfold to_uint16. rewrite Z.mod_small by lia. lia.
      + cbn [fst snd]. split; [reflexivity|]. split; [|assumption].
        unfold count_alive. rewrite El. lia.
    - (* falling edge *)
      exists 0%nat. cbn [fst snd]. split; [reflexivity|]. split; [|assumption].
      unfold count_alive; cbn [LastCOSState TimeoutCount].
      destruct Hinv as [H1 H2]. split; [reflexivity | lia].
    - (* rising edge *)
      apply andb_prop in Hruns as [Hle Hruns]. apply Nat.leb_le in Hle.
      destruct Hinv as [-> Hnz]. exists 1%nat. cbn [fst snd].
      split; [reflexivity|]. split; [|assumption].
      unfold count_alive; cbn [LastCOSState TimeoutCount]. lia.
    - (* low, stays low *)
      destruct Hinv as [-> Hnz]. exists 0%nat.
      rewrite andb_false_r.
      destruct (Z.eqb_spec (TimeoutCount c) 0); [contradiction|].
      destruct (COStimeoutEnable L); cbn [fst snd];
        (split; [reflexivity|]; split; [|assumption]);
        unfold count_alive; rewrite El; auto. }
  destruct (cos_check L c s) as [evs c1]; cbn [fst snd] in *.
  specialize (IH c1 run' Hinv' Hruns').
  destruct (cos_run L c1 rest) as [tr c2]; cbn [fst List.concat] in *.
  rewrite filter_app, length_app, IH, Nat.add_0_r.
  rewrite Hev. clear.
  induction evs as [|e evs IHe]; [reflexivity|].
  cbn [filter]. destruct (is_timeout_msg e) eqn:E; cbn [negb]; [assumption|].
  cbn [filter]. rewrite E. assumption.
Qed.

(** X4: with a count [T] between 1 and 65535, starting low with a count
    that is not zero (as [main] does), a sample sequence in which the level
    is never high for more than [T] passes in a row gives no timeout
    message, whether the timeout is enabled or not. *)
Theorem short_transmissions_never_time_out
    (L : Locals) (c : CosState) (samples : list bool) :
  0 < TimeoutCountCOS L < 2 ^ 16 ->
  LastCOSState c = false ->
  TimeoutCount c <> 0 ->
  runs_within (Z.to_nat (TimeoutCountCOS L)) 0 samples = true ->
  count_calls is_timeout_msg (fst (cos_run L c samples)) = 0%nat.
Proof.
  intros HT Hl Hnz Hruns.
  apply (no_timeout_within_count L samples HT c 0%nat); [|assumption].
  unfold count_alive. rewrite Hl. auto.
Qed.

Lemma short_transmissions_never_time_out_witness :
  count_calls is_timeout_msg
    (fst (cos_run default_locals cos_idle [true; true; false; true; false]))
  = 0%nat.
Proof.
  apply (short_transmissions_never_time_out default_locals cos_idle
           [true; true; false; true; false]).
  - cbn. lia.
  - reflexivity.
  - discriminate.
  - reflexivity.
Defined.

(** ** One pass of the loop, by the way it ends *)

Lemma loop_body_continue (L : Locals) (st st' : LoopState) (inp : TickInput)
    (evs : list event) :
  loop_body L st inp = (evs, Continue st') ->
  let due := (loopCount st mod netCheckDivisor L =? 0) && networkStatusOn L in
  let net := wifiLightHandler (networkStatusPin L) (lastWrite st) (ip_address inp) in
  netCheckDivisor L <> 0 /\
  evs = fst (cos_check L (cos st) (cos_pin inp)) ++
        (if due then fst net else []) ++ [Edelay (LoopDelayMs L)] /\
  cos st' = snd (cos_check L (cos st) (cos_pin inp)) /\
  loopCount st' = to_uint32 (loopCount st + 1) /\
  lastWrite st' = (if due then snd net else lastWrite st) /\
  SDswitchPressedCount st' =
    (if shutdown_pin inp then 0 else to_uint16 (SDswitchPressedCount st + 1)) /\
  (shutdown_pin inp = false ->
   to_uint16 (SDswitchPressedCount st + 1) <= SDswitchActivateCount L).
Proof.
  intros H due net. subst due net. revert H.
  unfold loop_body, network_and_delay.
  destruct (cos_check L (cos st) (cos_pin inp)) as [cev c]. cbn [fst snd].
  destruct (shutdown_pin inp); cbn [negb].
  - destruct (Z.eqb_spec (netCheckDivisor L) 0); [discriminate|].
    destruct ((loopCount st mod netCheckDivisor L =? 0) && networkStatusOn L).
    + destruct (wifiLightHandler _ _ _) as [net lw].
      intros [= <- <-]. cbn. repeat split; auto. discriminate.
    + intros [= <- <-]. cbn. repeat split; auto. discriminate.
  - destruct (Z.ltb_spec (SDswitchActivateCount L)
                (to_uint16 (SDswitchPressedCount st + 1))); [discriminate|].
    destruct (Z.eqb_spec (netCheckDivisor L) 0); [discriminate|].
    destruct ((loopCount st mod netCheckDivisor L =? 0) && networkStatusOn L).
    + destruct (wifiLightHandler _ _ _) as [net lw].
      intros [= <- <-]. cbn. repeat split; auto.
    + intros [= <- <-]. cbn. repeat split; auto.
Qed.

Lemma loop_body_break (L : Locals) (st : LoopState) (inp : TickInput)
    (evs : list event) :
  loop_body L st inp = (evs, Break) ->
  shutdown_pin inp = false /\
  SDswitchActivateCount L < to_uint16 (SDswitchPressedCount st + 1) /\
  evs = fst (cos_check L (cos st) (cos_pin inp)) ++ shutdown_sequence L.
Proof.
  unfold loop_body, network_and_delay.
  destruct (cos_check L (cos st) (cos_pin inp)) as [cev c]. cbn [fst snd].
  destruct (shutdown_pin inp); cbn [negb].
  - destruct (netCheckDivisor L =? 0); [discriminate|].
    destruct (_ && _); [destruct (wifiLightHandler _ _ _)|]; discriminate.
  - destruct (Z.ltb_spec (SDswitchActivateCount L)
                (to_uint16 (SDswitchPressedCount st + 1))).
    + intros [= <-]. auto.
    + destruct (netCheckDivisor L =? 0); [discriminate|].
      destruct (_ && _); [destruct (wifiLightHandler _ _ _)|]; discriminate.
Qed.

Lemma loop_body_pressed_break (L : Locals) (st : LoopState) (inp : TickInput) :
  shutdown_pin inp = false ->
  SDswitchActivateCount L < to_uint16 (SDswitchPressedCount st + 1) ->
  loop_body L st inp =
    (fst (cos_check L (cos st) (cos_pin inp)) ++ shutdown_sequence L, Break).
Proof.
  intros Hp Hgt. unfold loop_body.
  destruct (cos_check L (cos st) (cos_pin inp)) as [cev c].
  rewrite Hp. cbn [negb fst].
  destruct (Z.ltb_spec (SDswitchActivateCount L)
              (to_uint16 (SDswitchPressedCount st + 1))); [reflexivity | lia].
Qed.

Lemma wifiLightHandler_events (pin lw : Z) (a : string) (e : event) :
  In e (fst (wifiLightHandler pin lw a)) ->
  e = EgetIPaddress \/ e = EdigitalWrite pin LOW \/ e = EdigitalWrite pin HIGH.
Proof.
  unfold wifiLightHandler.
  repeat (match goal with |- context [if ?b then _ else _] => destruct b end);
    cbn; intuition auto.
Qed.

Lemma cos_check_no_shutdown_call (L : Locals) (c : CosState) (cur : bool) :
  ~ In (Esystem ShutdownScript) (fst (cos_check L c cur)).
Proof.
  destruct (cos_check_events L c cur) as [H | [H | [H | H]]];
    cbv zeta in H; rewrite H; cbn;
    intros Hin; repeat (destruct Hin as [Hin | Hin]; [discriminate Hin|]);
    exact Hin.
Qed.

(** ** Runs of the loop *)

Lemma run_loop_app_polling (L : Locals) (xs ys : list TickInput) :
  forall (st st1 : LoopState) (e1 : list event),
    run_loop L st xs = (e1, Polling st1) ->
    run_loop L st (xs ++ ys) =
      (e1 ++ fst (run_loop L st1 ys), snd (run_loop L st1 ys)).
Proof.
  induction xs as [|x xs IH]; intros st st1 e1; cbn [run_loop app].
  - intros [= <- <-]. now destruct (run_loop L st ys).
  - destruct (loop_body L st x) as [evs [st2 | |]]; [|discriminate..].
    destruct (run_loop L st2 xs) as [more out] eqn:Hrun.
    intros [= <- ->].
    rewrite (IH st2 st1 more Hrun).
    destruct (run_loop L st1 ys) as [e2 o2]; cbn [fst snd].
    now rewrite app_assoc.
Qed.

Lemma run_loop_polling_no_shutdown_call (L : Locals) (ticks : list TickInput) :
  forall (st st' : LoopState) (evs : list event),
    run_loop L st ticks = (evs, Polling st') ->
    ~ In (Esystem ShutdownScript) evs.
Proof.
  induction ticks as [|inp rest IH]; intros st st' evs; cbn [run_loop].
  - intros [= <- _] [].
  - destruct (loop_body L st inp) as [e1 [st1 | |]] eqn:Hbody; [|discriminate..].
    destruct (run_loop L st1 rest) as [more out] eqn:Hrun.
    intros [= <- ->] Hin.
    apply loop_body_continue in Hbody as (_ & -> & _).
    rewrite !in_app_iff in Hin.
    destruct Hin as [[Hin | [Hin | Hin]] | Hin].
    + now apply cos_check_no_shutdown_call in Hin.
    + destruct (_ && _); [|contradiction].
      apply wifiLightHandler_events in Hin as [H | [H | H]]; discriminate H.
    + destruct Hin as [H | []]; discriminate H.
    + now apply (IH st1 st' more Hrun).
Qed.

(** ** The shutdown switch *)

(** One released pass, then pressed passes: the loop goes on up to the
    threshold and runs the shutdown sequence on the press after it. *)
Lemma run_loop_release_then_presses
    (L : Locals) (st : LoopState) (rel : TickInput) (presses : list TickInput) :
  netCheckDivisor L <> 0 ->
  0 <= SDswitchActivateCount L < 65535 ->
  shutdown_pin rel = true ->
  Forall (fun inp => shutdown_pin inp = false) presses ->
  (Z.of_nat (List.length presses) <= SDswitchActivateCount L ->
   exists (evs : list event) (st' : LoopState),
     run_loop L st (rel :: presses) = (evs, Polling st') /\
     SDswitchPressedCount st' = Z.of_nat (List.length presses)) /\
  (Z.of_nat (List.length presses) = SDswitchActivateCount L + 1 ->
   exists pre : list event,
     run_loop L st (rel :: presses) =
       (pre ++ shutdown_sequence L ++ [Einiparser_freedict],
        Returned RETVAL_OK) /\
     ~ In (Esystem ShutdownScript) pre).
Proof.
  intros Hd HA Hrel Hall.
  assert (Hfew : forall ps, Forall (fun inp => shutdown_pin inp = false) ps ->
            Z.of_nat (List.length ps) <= SDswitchActivateCount L ->
            exists evs st',
              run_loop L st (rel :: ps) = (evs, Polling st') /\
              SDswitchPressedCount st' = Z.of_nat (List.length ps)).
  { intros ps Hps Hlen. cbn [run_loop]. unfold loop_body.
    destruct (cos_check L (cos st) (cos_pin rel)) as [cev c].
    rewrite Hrel. cbn [negb].
    destruct (network_and_delay_continue L st c 0 rel cev Hd)
      as (net & lw & ->).
    destruct (run_loop_pressed_count L Hd ltac:(lia) ps
                {| cos := c; SDswitchPressedCount := 0;
                   loopCount := to_uint32 (loopCount st + 1);
                   lastWrite := lw |} Hps)
      as (evs & st' & Hrun & Hcnt); [cbn; lia | cbn; lia |].
    rewrite Hrun. exists ((cev ++ net ++ [Edelay (LoopDelayMs L)]) ++ evs), st'.
    split; [reflexivity|]. rewrite Hcnt. cbn. lia. }
  split; [now apply Hfew|].
  intros Hlen.
  revert Hall Hlen.
  induction presses as [|p0 ps0 _] using rev_ind; intros Hall Hlen;
    [cbn in Hlen; lia|].
  rewrite length_app in Hlen. cbn [List.length] in Hlen.
  apply Forall_app in Hall as [Hinit Hlast].
  inversion Hlast as [|? ? Hp0 _]; subst.
  destruct (Hfew ps0 Hinit ltac:(lia)) as (evs & st' & Hrun & Hcnt).
  change (rel :: ps0 ++ [p0]) with ((rel :: ps0) ++ [p0]).
  rewrite (run_loop_app_polling L _ [p0] st st' evs Hrun).
  cbn [run_loop].
  rewrite loop_body_pressed_break;
    [|assumption | rewrite Hcnt; unfold to_uint16; rewrite Z.mod_small; lia].
  cbn [fst snd].
  exists (evs ++ fst (cos_check L (cos st') (cos_pin p0))).
  split; [now rewrite <- !app_assoc|].
  intros Hin. apply in_app_or in Hin as [Hin | Hin].
  - now apply (run_loop_polling_no_shutdown_call L _ st st' evs Hrun).
  - now apply cos_check_no_shutdown_call in Hin.
Qed.

(** X5: whatever the counter held, after one pass with the switch released
    it takes [SDswitchActivateCount + 1] consecutive passes with the switch
    pressed to shut down: with fewer the loop goes on and the counter equals
    the number of presses; on the last of that many the shutdown sequence
    runs, and the shutdown script has not been called before it. *)
Theorem shutdown_needs_threshold_presses
    (L : Locals) (st : LoopState) (rel : TickInput) (presses : list TickInput) :
  netCheckDivisor L <> 0 ->
  0 <= SDswitchActivateCount L < 65535 ->
  shutdown_pin rel = true ->
  Forall (fun inp => shutdown_pin inp = false) presses ->
  (Z.of_nat (List.length presses) <= SDswitchActivateCount L ->
   exists (evs : list event) (st' : LoopState),
     run_loop L st (rel :: presses) = (evs, Polling st') /\
     SDswitchPressedCount st' = Z.of_nat (List.length presses)) /\
  (Z.of_nat (List.length presses) = SDswitchActivateCount L + 1 ->
   exists pre : list event,
     run_loop L st (rel :: presses) =
       (pre ++ shutdown_sequence L ++ [Einiparser_freedict],
        Returned RETVAL_OK) /\
     ~ In (Esystem ShutdownScript) pre).
Proof. exact (run_loop_release_then_presses L st rel presses). Qed.

Lemma shutdown_needs_threshold_presses_witness :
  exists pre : list event,
    run_loop default_locals (initial_state garbage_world)
      (released_tick :: repeat pressed_tick 31) =
      (pre ++ shutdown_sequence default_locals ++ [Einiparser_freedict],
       Returned RETVAL_OK) /\
    ~ In (Esystem ShutdownScript) pre.
Proof.
  destruct (shutdown_needs_threshold_presses default_locals
              (initial_state garbage_world) released_tick
              (repeat pressed_tick 31)) as [_ Hfire].
  - vm_compute. discriminate.
  - vm_compute. split; [discriminate | reflexivity].
  - reflexivity.
  - repeat constructor.
  - apply Hfire. reflexivity.
Defined.

Lemma run_loop_never_returns (L : Locals) :
  (forall st inp, snd (loop_body L st inp) <> Break) ->
  forall (ticks : list TickInput) (st : LoopState) (v : Z),
    snd (run_loop L st ticks) <> Returned v.
Proof.
  intros Hnb. induction ticks as [|inp rest IH]; intros st v; cbn [run_loop].
  - discriminate.
  - specialize (Hnb st inp).
    destruct (loop_body L st inp) as [evs [st1 | |]]; cbn [snd] in *.
    + specialize (IH st1 v). now destruct (run_loop L st1 rest).
    + contradiction.
    + discriminate.
Qed.

(** X6: when [shutdown_switch_activate_count] truncates to 65535 (it is
    65535, or -1), the 16-bit press counter can never exceed it: whatever
    the pins read, [main] never leaves the loop through the shutdown
    sequence. *)
Theorem activate_count_65535_never_shuts_down
    (w : World) (ticks : list TickInput) (v : Z) :
  to_uint16 (shutdown_switch_activate_count (ini w)) = 65535 ->
  snd (main w ticks) <> Returned v.
Proof.
  intros Hmax. unfold main.
  destruct (asterisk_ctl_exists w); cbn [negb]; [|discriminate].
  destruct (timeout_count_of (ini w)) as [tc|]; [|discriminate].
  assert (Hnb : forall st inp,
            snd (loop_body (read_config (ini w) tc) st inp) <> Break).
  { intros st inp Hb.
    destruct (loop_body (read_config (ini w) tc) st inp) as [e f] eqn:Hbody.
    cbn [snd] in Hb. subst f.
    apply loop_body_break in Hbody as (_ & Hgt & _).
    cbn [SDswitchActivateCount read_config] in Hgt. rewrite Hmax in Hgt.
    unfold to_uint16 in Hgt.
    pose proof (Z.mod_pos_bound (SDswitchPressedCount st + 1) (2 ^ 16)). lia. }
  pose proof (run_loop_never_returns (read_config (ini w) tc) Hnb
                ticks (initial_state w) v) as Hrun.
  destruct (run_loop (read_config (ini w) tc) (initial_state w) ticks)
    as [evs out].
  exact Hrun.
Qed.

Lemma activate_count_65535_never_shuts_down_witness :
  snd (main (world_of ini_activate_count_minus_one) (repeat pressed_tick 40))
  <> Returned RETVAL_OK.
Proof.
  apply (activate_count_65535_never_shuts_down
           (world_of ini_activate_count_minus_one) (repeat pressed_tick 40)
           RETVAL_OK).
  reflexivity.
Defined.

(** ** Configuration values that make the behaviour undefined *)

(** X7: when [network_check_divisor] truncates to 0, the first pass that
    does not shut down divides by zero after the COS check, before any
    delay, also with the network indicator disabled. *)
Theorem zero_divisor_is_undefined
    (w : World) (tc : Z) (inp : TickInput) (rest : list TickInput) :
  asterisk_ctl_exists w = true ->
  timeout_count_of (ini w) = Some tc ->
  to_uint16 (network_check_divisor (ini w)) = 0 ->
  shutdown_pin inp = true ->
  let L := read_config (ini w) tc in
  main w (inp :: rest) =
    (EinitIni ConfPath :: print_config L ++ setup_pins L ++
       fst (cos_check L (cos (initial_state w)) (cos_pin inp)),
     Undefined).
Proof.
  intros Hctl Htc Hd Hrel L. unfold main.
  rewrite Hctl, Htc. cbn [negb]. fold L.
  cbn [run_loop]. unfold loop_body, network_and_delay.
  destruct (cos_check L (cos (initial_state w)) (cos_pin inp)) as [cev c].
  rewrite Hrel. cbn [negb].
  replace (netCheckDivisor L) with 0 by (symmetry; exact Hd).
  reflexivity.
Qed.

Lemma zero_divisor_is_undefined_witness :
  let L := read_config ini_zero_divisor 1500 in
  main (world_of ini_zero_divisor) [released_tick] =
    (EinitIni ConfPath :: print_config L ++ setup_pins L ++
       fst (cos_check L (cos (initial_state (world_of ini_zero_divisor)))
              (cos_pin released_tick)),
     Undefined).
Proof.
  apply (zero_divisor_is_undefined (world_of ini_zero_divisor) 1500
           released_tick []); reflexivity.
Defined.

Lemma compute_timeout_count_zero_delay (t : Z) :
  compute_timeout_count t 0 = None.
Proof.
  unfold compute_timeout_count.
  change (f32_of_Z 0) with (S754_zero false).
  destruct (f32_of_Z t) as [s | s | | s m e]; reflexivity.
Qed.

(** X8: when [COS_poll_loop_interval_ms] truncates to 0, whatever the
    timeout is, the timeout count is the conversion to [int] of a float
    division by zero, infinite or not a number, which C does not define;
    with the control file present the behaviour of [main] is undefined. *)
Theorem zero_loop_interval_is_undefined (w : World) (ticks : list TickInput) :
  to_uint16 (COS_poll_loop_interval_ms (ini w)) = 0 ->
  timeout_count_of (ini w) = None /\
  (asterisk_ctl_exists w = true -> snd (main w ticks) = Undefined).
Proof.
  intros Hz.
  assert (Hnone : timeout_count_of (ini w) = None).
  { unfold timeout_count_of. rewrite Hz.
    apply compute_timeout_count_zero_delay. }
  split; [exact Hnone|].
  intros Hctl. unfold main. rewrite Hctl, Hnone. reflexivity.
Qed.

Lemma zero_loop_interval_is_undefined_witness :
  timeout_count_of ini_zero_interval = None /\
  snd (main (world_of ini_zero_interval) [released_tick]) = Undefined.
Proof.
  destruct (zero_loop_interval_is_undefined (world_of ini_zero_interval)
              [released_tick] eq_refl) as [Hnone Hmain].
  split; [exact Hnone | exact (Hmain eq_refl)].
Defined.

(** ** Pin writes *)

Lemma loop_body_division_by_zero (L : Locals) (st : LoopState)
    (inp : TickInput) (evs : list event) :
  loop_body L st inp = (evs, DivisionByZero) ->
  netCheckDivisor L = 0 /\
  evs = fst (cos_check L (cos st) (cos_pin inp)).
Proof.
  unfold loop_body, network_and_delay.
  destruct (cos_check L (cos st) (cos_pin inp)) as [cev c]. cbn [fst snd].
  assert (Hnd : forall p,
            (if netCheckDivisor L =? 0 then (cev, DivisionByZero)
             else let '(net, lw) :=
                    if (loopCount st mod netCheckDivisor L =? 0) && networkStatusOn L
                    then wifiLightHandler (networkStatusPin L) (lastWrite st)
                           (ip_address inp)
                    else ([], lastWrite st) in
                  (cev ++ net ++ [Edelay (LoopDelayMs L)],
                   Continue {| cos := c; SDswitchPressedCount := p;
                               loopCount := to_uint32 (loopCount st + 1);
                               lastWrite := lw |})) = (evs, DivisionByZero) ->
            netCheckDivisor L = 0 /\ evs = cev).
  { intros p. destruct (Z.eqb_spec (netCheckDivisor L) 0).
    - intros [= <-]. auto.
    - destruct (_ && _); [destruct (wifiLightHandler _ _ _)|]; discriminate. }
  destruct (shutdown_pin inp); cbn [negb]; [apply Hnd|].
  destruct (_ <? _); [discriminate | apply Hnd].
Qed.

Lemma wifiLightHandler_from_LOW (pin : Z) (a : string) :
  snd (wifiLightHandler pin LOW a) = LOW /\
  (filter is_write (fst (wifiLightHandler pin LOW a)) = [] \/
   filter is_write (fst (wifiLightHandler pin LOW a)) = [EdigitalWrite pin HIGH]).
Proof.
  destruct a as [|ch a].
  - split; [reflexivity | left; reflexivity].
  - rewrite wifiLightHandler_connected by discriminate.
    split; [reflexivity | right; reflexivity].
Qed.

Lemma run_loop_writes (L : Locals) (ticks : list TickInput) :
  forall st : LoopState,
    lastWrite st = LOW ->
    exists n : nat,
      filter is_write (fst (run_loop L st ticks)) =
      repeat (EdigitalWrite (networkStatusPin L) HIGH) n.
Proof.
  induction ticks as [|inp rest IH]; intros st Hlw; cbn [run_loop].
  - now exists 0%nat.
  - pose proof (cos_check_no_pin_activity L (cos st) (cos_pin inp)) as [Hcw _].
    destruct (loop_body L st inp) as [evs [st1 | |]] eqn:Hbody.
    + apply loop_body_continue in Hbody as (_ & -> & _ & _ & Hlw1 & _).
      rewrite Hlw in Hlw1.
      destruct (wifiLightHandler_from_LOW (networkStatusPin L) (ip_address inp))
        as [Hsnd Hw].
      assert (lastWrite st1 = LOW) as Hst1.
      { rewrite Hlw1. now destruct (_ && _). }
      destruct (IH st1 Hst1) as [n Hn].
      destruct (run_loop L st1 rest) as [more out]; cbn [fst] in *.
      rewrite !filter_app, Hcw, Hn, Hlw. cbn [filter is_write app].
      rewrite app_nil_r.
      destruct (_ && _).
      * destruct Hw as [-> | ->]; [now exists n | now exists (S n)].
      * now exists n.
    + apply loop_body_break in Hbody as (_ & _ & ->).
      cbn [fst]. rewrite !filter_app, Hcw. now exists 1%nat.
    + apply loop_body_division_by_zero in Hbody as (_ & ->).
      cbn [fst]. rewrite Hcw. now exists 0%nat.
Qed.

Lemma print_config_no_writes (L : Locals) :
  filter is_write (print_config L) = [].
Proof. unfold print_config. now destruct (COStimeoutEnable L). Qed.

(** X9: whatever the configuration and the inputs, the only pin [main] ever
    writes is the network status pin: [LOW] once during start-up, and after
    that only [HIGH]; the loop never writes it [LOW] again. *)
Theorem main_writes_network_pin_low_once_then_high
    (w : World) (ticks : list TickInput) :
  let pin := to_uint16 (gpio_network (ini w)) in
  filter is_write (fst (main w ticks)) = [] \/
  exists n : nat,
    filter is_write (fst (main w ticks)) =
    EdigitalWrite pin LOW :: repeat (EdigitalWrite pin HIGH) n.
Proof.
  intros pin. unfold main.
  destruct (asterisk_ctl_exists w); cbn [negb]; [|now left].
  destruct (timeout_count_of (ini w)) as [tc|].
  - right.
    destruct (run_loop_writes (read_config (ini w) tc) ticks (initial_state w)
                eq_refl) as [n Hn].
    destruct (run_loop (read_config (ini w) tc) (initial_state w) ticks)
      as [evs out]; cbn [fst] in *.
    exists n. cbn [filter is_write].
    rewrite !filter_app, print_config_no_writes, Hn. reflexivity.
  - left. cbn [fst filter is_write]. apply print_config_no_writes.
Qed.

(** ** How often the address is queried *)

Lemma div_step (s d : Z) :
  0 <= s -> 0 < d ->
  (s + d) / d - (s + d - 1) / d = if s mod d =? 0 then 1 else 0.
Proof.
  intros Hs Hd.
  replace (s + d) with (s + 1 * d) by lia.
  replace (s + 1 * d - 1) with (s - 1 + 1 * d) by lia.
  rewrite !Z.div_add by lia.
  pose proof (Z.div_mod s d ltac:(lia)) as Hdm.
  pose proof (Z.mod_pos_bound s d Hd) as Hb.
  destruct (Z.eqb_spec (s mod d) 0) as [E | E].
  - rewrite <- (Z.div_unique (s - 1) d (s / d - 1) (d - 1)); lia.
  - rewrite <- (Z.div_unique (s - 1) d (s / d) (s mod d - 1)); lia.
Qed.

Lemma wifiLightHandler_one_query (pin lw : Z) (a : string) :
  List.length (filter is_getIP (fst (wifiLightHandler pin lw a))) = 1%nat.
Proof.
  unfold wifiLightHandler.
  repeat (match goal with |- context [if ?b then _ else _] => destruct b end);
    reflexivity.
Qed.

Lemma cos_check_no_query (L : Locals) (c : CosState) (cur : bool) :
  filter is_getIP (fst (cos_check L c cur)) = [].
Proof.
  destruct (cos_check_events L c cur) as [H | [H | [H | H]]];
    cbv zeta in H; rewrite H; reflexivity.
Qed.

Lemma run_loop_queries (L : Locals) (ticks : list TickInput) :
  0 < netCheckDivisor L ->
  forall (st st' : LoopState) (evs : list event),
    run_loop L st ticks = (evs, Polling st') ->
    0 <= loopCount st ->
    loopCount st + Z.of_nat (List.length ticks) < 2 ^ 32 ->
    let d := netCheckDivisor L in
    let s := loopCount st in
    Z.of_nat (List.length (filter is_getIP evs)) =
      if networkStatusOn L
      then (s + Z.of_nat (List.length ticks) + d - 1) / d - (s + d - 1) / d
      else 0.
Proof.
  intros Hd. induction ticks as [|inp rest IH]; intros st st' evs; cbn [run_loop].
  - intros [= <- _] _ _. cbn. rewrite Z.add_0_r, Z.sub_diag.
    now destruct (networkStatusOn L).
  - destruct (loop_body L st inp) as [e1 [st1 | |]] eqn:Hbody; [|discriminate..].
    destruct (run_loop L st1 rest) as [more out] eqn:Hrun.
    intros [= <- ->] Hs Hlen. cbn [List.length] in Hlen.
    apply loop_body_continue in Hbody as (_ & -> & _ & Hlc & _).
    assert (loopCount st1 = loopCount st + 1) as Hlc1.
    { rewrite Hlc. unfold to_uint32. apply Z.mod_small. lia. }
    specialize (IH st1 st' more Hrun ltac:(lia) ltac:(lia)).
    cbv zeta in IH |- *. rewrite Hlc1 in IH.
    rewrite !filter_app, !length_app, cos_check_no_query.
    cbn [List.length filter is_getIP]. rewrite Nat.add_0_r.
    rewrite Nat2Z.inj_add, IH.
    pose proof (div_step (loopCount st) (netCheckDivisor L) Hs Hd) as Hstep.
    replace (loopCount st + 1 + netCheckDivisor L - 1)
      with (loopCount st + netCheckDivisor L) by lia.
    replace (loopCount st + Z.of_nat (S (List.length rest)) + netCheckDivisor L - 1)
      with (loopCount st + 1 + Z.of_nat (List.length rest) + netCheckDivisor L - 1)
      by lia.
    destruct (networkStatusOn L).
    + rewrite andb_true_r.
      destruct (loopCount st mod netCheckDivisor L =? 0).
      * rewrite wifiLightHandler_one_query. lia.
      * cbn [List.length filter]. lia.
    + rewrite andb_false_r. reflexivity.
Qed.

(** X10: as long as [main] stays in the loop, over its first [n] passes
    ([n] below 2^32) the address is queried on passes 0, d, 2d, ... for the
    divisor d, that is ceil(n/d) times, when the network indicator is
    enabled, and never when it is disabled. *)
Theorem address_queried_every_divisor_passes
    (w : World) (tc : Z) (ticks : list TickInput)
    (evs : list event) (st' : LoopState) :
  asterisk_ctl_exists w = true ->
  timeout_count_of (ini w) = Some tc ->
  0 < to_uint16 (network_check_divisor (ini w)) ->
  Z.of_nat (List.length ticks) < 2 ^ 32 ->
  main w ticks = (evs, Polling st') ->
  let d := to_uint16 (network_check_divisor (ini w)) in
  Z.of_nat (List.length (filter is_getIP evs)) =
    if enable_network_status_LED (ini w)
    then (Z.of_nat (List.length ticks) + d - 1) / d
    else 0.
Proof.
  intros Hctl Htc Hd Hlen. unfold main. rewrite Hctl, Htc.
  change (negb true) with false. cbv iota.
  set (L := read_config (ini w) tc).
  destruct (run_loop L (initial_state w) ticks) as [more out] eqn:Hrun.
  intros Hmain. apply pair_equal_spec in Hmain as [<- ->].
  set (d := to_uint16 (network_check_divisor (ini w))) in *.
  pose proof (run_loop_queries L ticks Hd (initial_state w) st' more Hrun
                ltac:(cbn; lia) ltac:(cbn; lia)) as Hq.
  cbv zeta in Hq. cbn [loopCount initial_state] in Hq.
  change (netCheckDivisor L) with d in Hq.
  change (networkStatusOn L) with (enable_network_status_LED (ini w)) in Hq.
  assert (filter is_getIP (print_config L) = []) as Hpc.
  { unfold print_config. now destruct (COStimeoutEnable L). }
  change (EinitIni ConfPath :: print_config L ++ setup_pins L ++ more)
    with ([EinitIni ConfPath] ++ print_config L ++ setup_pins L ++ more).
  rewrite !filter_app, Hpc.
  change (filter is_getIP [EinitIni ConfPath]) with (@nil event).
  change (filter is_getIP (setup_pins L)) with (@nil event).
  cbn [app]. rewrite Hq.
  destruct (enable_network_status_LED (ini w)); [|reflexivity].
  rewrite Z.add_0_l.
  replace ((0 + d - 1) / d) with 0; [lia|].
  symmetry. apply Z.div_small. lia.
Qed.

Lemma address_queried_every_divisor_passes_witness :
  Z.of_nat
    (List.length
       (filter is_getIP
          (fst (main (world_of ini_led) (repeat connected_tick 21))))) =
  (21 + 20 - 1) / 20.
Proof.
  apply (address_queried_every_divisor_passes (world_of ini_led) 1500
           (repeat connected_tick 21) _
           {| cos := cos_idle; SDswitchPressedCount := 0;
              loopCount := 21; lastWrite := LOW |}).
  - reflexivity.
  - reflexivity.
  - vm_compute. reflexivity.
  - cbn. lia.
  - vm_compute. reflexivity.
Defined.

(** ** Leaving the loop *)

Lemma run_loop_returned (L : Locals) (ticks : list TickInput) :
  forall (st : LoopState) (evs : list event) (v : Z),
    run_loop L st ticks = (evs, Returned v) ->
    v = RETVAL_OK /\
    (exists pre : list event,
       evs = pre ++ shutdown_sequence L ++ [Einiparser_freedict]) /\
    forall more : list TickInput,
      run_loop L st (ticks ++ more) = (evs, Returned v).
Proof.
  induction ticks as [|inp rest IH]; intros st evs v; cbn [run_loop app].
  - discriminate.
  - destruct (loop_body L st inp) as [e1 [st1 | |]] eqn:Hbody.
    + destruct (run_loop L st1 rest) as [e2 out] eqn:Hrun.
      intros Heq. apply pair_equal_spec in Heq as [<- ->].
      destruct (IH st1 e2 v Hrun) as (Hv & (pre & ->) & Hmore).
      split; [assumption|]. split.
      * exists (e1 ++ pre). now rewrite <- app_assoc.
      * intros more. now rewrite Hmore.
    + intros Heq. apply pair_equal_spec in Heq as [<- Hv].
      injection Hv as <-.
      apply loop_body_break in Hbody as (_ & _ & ->).
      split; [reflexivity|]. split; [|reflexivity].
      exists (fst (cos_check L (cos st) (cos_pin inp))).
      now rewrite <- app_assoc.
    + discriminate.
Qed.

(** X11: [main] returns only through the shutdown sequence: if it returns,
    the value is 0, its last calls are the network pin written [HIGH], the
    shutdown message, the shutdown script, the 5000 ms delay, the power-off
    command and the release of the configuration, and no pin read that
    would have followed is looked at. *)
Theorem main_returns_only_after_shutdown
    (w : World) (ticks : list TickInput) (evs : list event) (v : Z) :
  main w ticks = (evs, Returned v) ->
  v = RETVAL_OK /\
  (exists (tc : Z) (pre : list event),
     timeout_count_of (ini w) = Some tc /\
     evs = pre ++ shutdown_sequence (read_config (ini w) tc) ++
           [Einiparser_freedict]) /\
  forall more : list TickInput, main w (ticks ++ more) = (evs, Returned v).
Proof.
  unfold main.
  destruct (asterisk_ctl_exists w); cbn [negb]; [|discriminate].
  destruct (timeout_count_of (ini w)) as [tc|]; [|discriminate].
  set (L := read_config (ini w) tc).
  destruct (run_loop L (initial_state w) ticks) as [e out] eqn:Hrun.
  intros Heq. apply pair_equal_spec in Heq as [<- ->].
  destruct (run_loop_returned L ticks (initial_state w) e v Hrun)
    as (Hv & (pre & ->) & Hmore).
  split; [assumption|]. split.
  - exists tc, (EinitIni ConfPath :: print_config L ++ setup_pins L ++ pre).
    split; [reflexivity|].
    now rewrite <- !app_comm_cons, <- !app_assoc.
  - intros more. now rewrite Hmore.
Qed.

Lemma main_returns_only_after_shutdown_witness :
  RETVAL_OK = RETVAL_OK /\
  (exists (tc : Z) (pre : list event),
     timeout_count_of (ini default_world) = Some tc /\
     fst (main default_world (repeat pressed_tick 31)) =
       pre ++ shutdown_sequence (read_config (ini default_world) tc) ++
       [Einiparser_freedict]) /\
  forall more : list TickInput,
    main default_world (repeat pressed_tick 31 ++ more) =
      (fst (main default_world (repeat pressed_tick 31)), Returned RETVAL_OK).
Proof.
  apply (main_returns_only_after_shutdown default_world
           (repeat pressed_tick 31)).
  vm_compute. reflexivity.
Defined.

(** ** The COS check inside the loop *)

Lemma filter_command_wifi (pin lw : Z) (a : string) :
  filter is_command (fst (wifiLightHandler pin lw a)) = [].
Proof.
  unfold wifiLightHandler.
  repeat (match goal with |- context [if ?b then _ else _] => destruct b end);
    reflexivity.
Qed.

(** X12: as long as the loop goes on, the commands it runs are exactly those
    of the COS check applied to the COS pin samples, in order, and the COS
    state it is left in is the one the COS check alone leaves: the shutdown
    switch, the network indicator and their inputs have no influence on the
    keying. *)
Theorem loop_commands_are_cos_commands
    (L : Locals) (ticks : list TickInput) :
  forall (st st' : LoopState) (evs : list event),
    run_loop L st ticks = (evs, Polling st') ->
    filter is_command evs =
      filter is_command
        (List.concat (fst (cos_run L (cos st) (map cos_pin ticks)))) /\
    cos st' = snd (cos_run L (cos st) (map cos_pin ticks)).
Proof.
  induction ticks as [|inp rest IH]; intros st st' evs; cbn [run_loop map cos_run].
  - intros Heq. apply pair_equal_spec in Heq as [<- Hst].
    injection Hst as <-. split; reflexivity.
  - destruct (loop_body L st inp) as [e1 [st1 | |]] eqn:Hbody; [|discriminate..].
    destruct (run_loop L st1 rest) as [more out] eqn:Hrun.
    intros Heq. apply pair_equal_spec in Heq as [<- ->].
    apply loop_body_continue in Hbody as (_ & -> & Hcos & _).
    destruct (IH st1 st' more Hrun) as [Hcmd Hst].
    rewrite Hcos in Hcmd, Hst.
    destruct (cos_check L (cos st) (cos_pin inp)) as [cev c]; cbn [fst snd] in *.
    destruct (cos_run L c (map cos_pin rest)) as [tr c2]; cbn [fst snd] in *.
    split; [|assumption].
    cbn [List.concat]. rewrite !filter_app, Hcmd.
    destruct (_ && _); [rewrite filter_command_wifi|];
      cbn [filter is_command app]; now rewrite ?app_nil_r.
Qed.

Lemma loop_commands_are_cos_commands_witness :
  filter is_command
    (fst (run_loop led_locals (initial_state default_world)
            [carrier_tick; carrier_tick; connected_tick; pressed_tick])) =
    [Esystem KeyCmd; Esystem UnkeyCmd] /\
  filter is_command
    (List.concat
       (fst (cos_run led_locals cos_idle [true; true; false; false]))) =
    [Esystem KeyCmd; Esystem UnkeyCmd] /\
  snd (cos_run led_locals cos_idle [true; true; false; false]) =
    {| LastCOSState := false; TimeoutCount := 1499 |}.
Proof.
  destruct (loop_commands_are_cos_commands led_locals
              [carrier_tick; carrier_tick; connected_tick; pressed_tick]
              (initial_state default_world)
              {| cos := {| LastCOSState := false; TimeoutCount := 1499 |};
                 SDswitchPressedCount := 1;
                 loopCount := 4; lastWrite := LOW |}
              (fst (run_loop led_locals (initial_state default_world)
                      [carrier_tick; carrier_tick; connected_tick; pressed_tick])))
    as [Hcmd Hcos].
  - vm_compute. reflexivity.
  - split; [|split].
    + rewrite Hcmd. reflexivity.
    + reflexivity.
    + symmetry. exact Hcos.
Defined.

(** ** A carrier already present at start-up *)

Lemma cos_check_high_no_key (L : Locals) (c : CosState) :
  LastCOSState c = true ->
  filter is_key (fst (cos_check L c true)) = [].
Proof.
  intros Hl. apply length_zero_iff_nil.
  destruct (cos_check_counts L c true) as [Hk _]. cbv zeta in Hk.
  rewrite Hk, Hl. reflexivity.
Qed.

Lemma wifiLightHandler_no_key (pin lw : Z) (a : string) :
  filter is_key (fst (wifiLightHandler pin lw a)) = [].
Proof.
  unfold wifiLightHandler.
  repeat (match goal with |- context [if ?b then _ else _] => destruct b end);
    reflexivity.
Qed.

Lemma run_loop_high_no_key (L : Locals) (ticks : list TickInput) :
  forall st : LoopState,
    LastCOSState (cos st) = true ->
    Forall (fun inp => cos_pin inp = true) ticks ->
    filter is_key (fst (run_loop L st ticks)) = [].
Proof.
  induction ticks as [|inp rest IH]; intros st Hl Hall; cbn [run_loop];
    [reflexivity|].
  inversion Hall as [|? ? Hhigh Hrest]; subst.
  pose proof (cos_check_high_no_key L (cos st) Hl) as Hk.
  pose proof (cos_check_last L (cos st) true) as Hlast.
  destruct (loop_body L st inp) as [e1 [st1 | |]] eqn:Hbody.
  - apply loop_body_continue in Hbody as (_ & -> & Hcos & _).
    rewrite Hhigh in *. rewrite <- Hcos in Hlast.
    specialize (IH st1 Hlast Hrest).
    destruct (run_loop L st1 rest) as [more out]; cbn [fst] in *.
    rewrite !filter_app, Hk, IH.
    destruct (_ && _); [rewrite wifiLightHandler_no_key|]; reflexivity.
  - apply loop_body_break in Hbody as (_ & _ & ->).
    rewrite Hhigh in *. cbn [fst]. rewrite !filter_app, Hk. reflexivity.
  - apply loop_body_division_by_zero in Hbody as (_ & ->).
    rewrite Hhigh in *. cbn [fst]. exact Hk.
Qed.

(** X13: the level read at start-up is taken as already seen: when the COS
    pin reads high as [main] starts and on every pass after, [main] never
    issues the key command, however long the carrier lasts. *)
Theorem carrier_present_at_startup_is_never_keyed
    (w : World) (ticks : list TickInput) :
  initial_COS w = true ->
  Forall (fun inp => cos_pin inp = true) ticks ->
  filter is_key (fst (main w ticks)) = [].
Proof.
  intros Hinit Hall. unfold main.
  destruct (asterisk_ctl_exists w); [|reflexivity].
  change (negb true) with false. cbv iota.
  assert (Hpc : forall L, filter is_key (print_config L) = []).
  { intros L. unfold print_config. now destruct (COStimeoutEnable L). }
  destruct (timeout_count_of (ini w)) as [tc|].
  - set (L := read_config (ini w) tc).
    pose proof (run_loop_high_no_key L ticks (initial_state w) Hinit Hall) as Hrun.
    destruct (run_loop L (initial_state w) ticks) as [evs out]; cbn [fst] in *.
    change (EinitIni ConfPath :: print_config L ++ setup_pins L ++ evs)
      with ([EinitIni ConfPath] ++ print_config L ++ setup_pins L ++ evs).
    rewrite !filter_app, Hpc, Hrun. reflexivity.
  - cbn [fst].
    change (EinitIni ConfPath :: print_config (read_config (ini w) 0))
      with ([EinitIni ConfPath] ++ print_config (read_config (ini w) 0)).
    rewrite filter_app, Hpc. reflexivity.
Qed.

Lemma carrier_present_at_startup_is_never_keyed_witness :
  filter is_key
    (fst (main {| ini := default_ini; asterisk_ctl_exists := true;
                  initial_COS := true; SDswitchPressedCount_garbage := 0 |}
            (repeat {| cos_pin := true; shutdown_pin := true;
                       ip_address := EmptyString |} 3))) = [].
Proof.
  apply carrier_present_at_startup_is_never_keyed.
  - reflexivity.
  - repeat constructor.
Defined.

(** ** The network status pin at start-up and at shutdown *)

Lemma startup_no_query (L : Locals) :
  ~ In EgetIPaddress (EinitIni ConfPath :: print_config L ++ setup_pins L).
Proof.
  unfold print_config, setup_pins.
  destruct (COStimeoutEnable L); cbn [app];
    intros Hin; repeat (destruct Hin as [Hin | Hin]; [discriminate Hin|]);
    exact Hin.
Qed.

Lemma startup_writes (L : Locals) :
  filter is_write (EinitIni ConfPath :: print_config L ++ setup_pins L) =
    [EdigitalWrite (networkStatusPin L) LOW].
Proof.
  change (EinitIni ConfPath :: print_config L ++ setup_pins L)
    with ([EinitIni ConfPath] ++ print_config L ++ setup_pins L).
  rewrite !filter_app, print_config_no_writes. reflexivity.
Qed.

(** With the indicator disabled the loop never queries the address, and its
    only pin write is the one of the shutdown sequence. *)
Lemma run_loop_indicator_off (L : Locals) (ticks : list TickInput) :
  networkStatusOn L = false ->
  forall st : LoopState,
    ~ In EgetIPaddress (fst (run_loop L st ticks)) /\
    filter is_write (fst (run_loop L st ticks)) =
      match snd (run_loop L st ticks) with
      | Returned _ => [EdigitalWrite (networkStatusPin L) HIGH]
      | _ => []
      end.
Proof.
  intros Hoff. induction ticks as [|inp rest IH]; intros st; cbn [run_loop].
  - split; [intros [] | reflexivity].
  - pose proof (cos_check_no_pin_activity L (cos st) (cos_pin inp)) as [Hw Hq].
    destruct (loop_body L st inp) as [e1 [st1 | |]] eqn:Hbody.
    + apply loop_body_continue in Hbody as (_ & -> & _).
      rewrite Hoff, andb_false_r.
      destruct (IH st1) as [IHq IHw].
      destruct (run_loop L st1 rest) as [more out]; cbn [fst snd app] in *.
      split.
      * intros Hin. rewrite !in_app_iff in Hin.
        destruct Hin as [[Hin | [Hin | []]] | Hin];
          [contradiction | discriminate Hin | contradiction].
      * rewrite !filter_app, Hw, IHw. reflexivity.
    + apply loop_body_break in Hbody as (_ & _ & ->).
      cbn [fst snd]. split.
      * intros Hin. rewrite !in_app_iff in Hin.
        destruct Hin as [[Hin | Hin] | Hin]; [contradiction | |].
        -- cbn in Hin.
           repeat (destruct Hin as [Hin | Hin]; [discriminate Hin|]).
           exact Hin.
        -- destruct Hin as [Hin | []]. discriminate Hin.
      * rewrite !filter_app, Hw. reflexivity.
    + apply loop_body_division_by_zero in Hbody as (_ & ->).
      cbn [fst snd]. split; assumption.
Qed.

(** C10: with the control file present and the timeout count defined, and
    for either value of the network indicator flag: the trace of [main]
    starts with the start-up calls, which set the network status pin to
    output and write it [LOW], their only pin write; whenever [main]
    returns, its trace ends with the shutdown sequence, which starts by
    writing the pin [HIGH], and [main] does return when, after a released
    pass, the switch is pressed for one pass more than the activate count;
    with the flag off [main] never queries the address and writes the pin
    [LOW] at start-up and, if it returns, [HIGH] at shutdown, nothing else;
    and on a first pass that finds an address the check writes the pin
    [HIGH] exactly when the flag is on. *)
Theorem C10_network_pin_writes (w : World) (tc : Z) (b : bool) :
  asterisk_ctl_exists w = true ->
  timeout_count_of (ini w) = Some tc ->
  let wb := with_network_LED b w in
  let L := read_config (ini wb) tc in
  let pin := networkStatusPin L in
  (forall ticks : list TickInput, exists rest : list event,
     fst (main wb ticks) =
       EinitIni ConfPath :: print_config L ++ setup_pins L ++ rest) /\
  (exists pre post : list event,
     setup_pins L =
       pre ++ EpinMode pin OUTPUT :: EdigitalWrite pin LOW :: post) /\
  filter is_write (EinitIni ConfPath :: print_config L ++ setup_pins L) =
    [EdigitalWrite pin LOW] /\
  (forall (ticks : list TickInput) (evs : list event) (v : Z),
     main wb ticks = (evs, Returned v) ->
     exists pre : list event,
       evs = pre ++ [ EdigitalWrite pin HIGH; Eprintf ShuttingDownMsg [];
                      Esystem ShutdownScript; Edelay 5000;
                      Esystem PoweroffCmd; Einiparser_freedict ]) /\
  (forall (rel : TickInput) (presses : list TickInput),
     netCheckDivisor L <> 0 ->
     0 <= SDswitchActivateCount L < 65535 ->
     shutdown_pin rel = true ->
     Forall (fun inp => shutdown_pin inp = false) presses ->
     Z.of_nat (List.length presses) = SDswitchActivateCount L + 1 ->
     snd (main wb (rel :: presses)) = Returned RETVAL_OK) /\
  (b = false ->
   forall ticks : list TickInput,
     ~ In EgetIPaddress (fst (main wb ticks)) /\
     filter is_write (fst (main wb ticks)) =
       EdigitalWrite pin LOW ::
       match snd (main wb ticks) with
       | Returned _ => [EdigitalWrite pin HIGH]
       | _ => []
       end) /\
  (forall inp : TickInput,
     netCheckDivisor L <> 0 ->
     shutdown_pin inp = true ->
     ip_address inp <> EmptyString ->
     filter is_write (fst (main wb [inp])) =
       EdigitalWrite pin LOW ::
       (if b then [EdigitalWrite pin HIGH] else [])).
Proof.
  intros Hctl Htc wb L pin.
  assert (Hmain : forall ticks,
            main wb ticks =
              (EinitIni ConfPath :: print_config L ++ setup_pins L ++
                 fst (run_loop L (initial_state w) ticks),
               snd (run_loop L (initial_state w) ticks))).
  { intros ticks. unfold main.
    change (asterisk_ctl_exists wb) with (asterisk_ctl_exists w).
    change (timeout_count_of (ini wb)) with (timeout_count_of (ini w)).
    rewrite Hctl, Htc. change (negb true) with false. cbv iota.
    change (initial_state wb) with (initial_state w). fold L.
    now destruct (run_loop L (initial_state w) ticks). }
  split.
  { intros ticks. rewrite Hmain. cbn [fst]. eexists. reflexivity. }
  split.
  { exists [EwiringPiSetup; EpinMode (ExtCOSPin L) INPUT]. eexists.
    reflexivity. }
  split; [apply startup_writes|].
  split.
  { intros ticks evs v. rewrite Hmain. intros Heq.
    apply pair_equal_spec in Heq as [<- Hout].
    destruct (run_loop L (initial_state w) ticks) as [e out] eqn:Hrun.
    cbn [fst snd] in *. subst out.
    destruct (run_loop_returned L ticks (initial_state w) e v Hrun)
      as (_ & (pre & ->) & _).
    exists (EinitIni ConfPath :: print_config L ++ setup_pins L ++ pre).
    cbn [app]. rewrite <- !app_assoc. reflexivity. }
  split.
  { intros rel presses Hd HA Hrel Hall Hlen. rewrite Hmain. cbn [snd].
    destruct (run_loop_release_then_presses L (initial_state w) rel presses
                Hd HA Hrel Hall) as [_ Hfire].
    destruct (Hfire Hlen) as (pre & -> & _). reflexivity. }
  split.
  { intros Hb ticks. rewrite Hmain. cbn [fst snd].
    assert (Hoff : networkStatusOn L = false) by (subst b; reflexivity).
    destruct (run_loop_indicator_off L ticks Hoff (initial_state w))
      as [Hq Hw].
    split.
    - intros Hin.
      change (EinitIni ConfPath :: print_config L ++ setup_pins L ++
                fst (run_loop L (initial_state w) ticks))
        with ((EinitIni ConfPath :: print_config L) ++ setup_pins L ++
                fst (run_loop L (initial_state w) ticks)) in Hin.
      rewrite app_assoc in Hin. apply in_app_or in Hin as [Hin | Hin].
      + now apply (startup_no_query L).
      + contradiction.
    - change (EinitIni ConfPath :: print_config L ++ setup_pins L ++
                fst (run_loop L (initial_state w) ticks))
        with ((EinitIni ConfPath :: print_config L) ++ setup_pins L ++
                fst (run_loop L (initial_state w) ticks)).
      rewrite app_assoc, filter_app, Hw.
      change ((EinitIni ConfPath :: print_config L) ++ setup_pins L)
        with (EinitIni ConfPath :: print_config L ++ setup_pins L).
      rewrite startup_writes. reflexivity. }
  intros inp Hd Hrel Haddr. rewrite Hmain. cbn [fst].
  change (EinitIni ConfPath :: print_config L ++ setup_pins L ++
            fst (run_loop L (initial_state w) [inp]))
    with ((EinitIni ConfPath :: print_config L) ++ setup_pins L ++
            fst (run_loop L (initial_state w) [inp])).
  rewrite app_assoc, filter_app.
  change ((EinitIni ConfPath :: print_config L) ++ setup_pins L)
    with (EinitIni ConfPath :: print_config L ++ setup_pins L).
  rewrite startup_writes. cbn [app]. f_equal.
  cbn [run_loop]. unfold loop_body, network_and_delay.
  pose proof (cos_check_no_pin_activity L (cos (initial_state w)) (cos_pin inp))
    as [Hw _].
  destruct (cos_check L (cos (initial_state w)) (cos_pin inp)) as [cev c].
  cbn [fst] in Hw. rewrite Hrel. cbn [negb].
  destruct (Z.eqb_spec (netCheckDivisor L) 0); [contradiction|].
  change (loopCount (initial_state w)) with 0.
  change (lastWrite (initial_state w)) with LOW.
  rewrite Z.mod_0_l by assumption.
  change (networkStatusOn L) with b. cbn [Z.eqb andb].
  destruct b.
  - rewrite wifiLightHandler_connected by assumption.
    cbn [fst]. rewrite !filter_app, Hw. reflexivity.
  - cbn [fst]. rewrite !filter_app, Hw. reflexivity.
Qed.

Lemma C10_network_pin_writes_witness :
  (snd (main default_world (released_tick :: repeat pressed_tick 31)) =
     Returned RETVAL_OK /\
   filter is_write
     (fst (main default_world (released_tick :: repeat pressed_tick 31))) =
     [EdigitalWrite 3 LOW; EdigitalWrite 3 HIGH]) /\
  filter is_write (fst (main default_world [carrier_tick])) =
    [EdigitalWrite 3 LOW] /\
  (snd (main (world_of ini_led) (released_tick :: repeat pressed_tick 31)) =
     Returned RETVAL_OK /\
   filter is_write (fst (main (world_of ini_led) [carrier_tick])) =
     [EdigitalWrite 3 LOW; EdigitalWrite 3 HIGH]).
Proof.
  destruct (C10_network_pin_writes default_world 1500 false eq_refl eq_refl)
    as (_ & _ & _ & _ & Hret & Hoff & Hfirst).
  destruct (C10_network_pin_writes default_world 1500 true eq_refl eq_refl)
    as (_ & _ & _ & _ & Hret' & _ & Hfirst').
  assert (Hdiv : 20 <> 0) by discriminate.
  assert (Hact : 0 <= 30 < 65535) by lia.
  assert (Hpressed : Forall (fun inp => shutdown_pin inp = false)
                       (repeat pressed_tick 31)) by (repeat constructor).
  assert (Haddr : ip_address carrier_tick <> EmptyString) by discriminate.
  split; [split|split; [|split]].
  - exact (Hret released_tick (repeat pressed_tick 31)
             Hdiv Hact eq_refl Hpressed eq_refl).
  - exact (proj2 (Hoff eq_refl (released_tick :: repeat pressed_tick 31))).
  - exact (Hfirst carrier_tick Hdiv eq_refl Haddr).
  - exact (Hret' released_tick (repeat pressed_tick 31)
             Hdiv Hact eq_refl Hpressed eq_refl).
  - exact (Hfirst' carrier_tick Hdiv eq_refl Haddr).
Defined.
